(** * The fuel-price ETL pipeline of [airflow/dags/pipeline.py]

    A shallow embedding of the five stages of the DAG [etl_fuels]:
    [clean_data], [transform_data], [load_to_postgres] and [validate_db]
    (the fetcher only copies bytes and carries no claim).

    Files are modelled after tokenisation: a CSV file is its header and
    its records, indexed by the delimiter it is written with.  pandas
    frames are column oriented, as in the library.  The database is a
    connection with a durable state, a transaction-local state and the
    list of statements it was sent. *)

From Stdlib Require Import ZArith List String Ascii Lia Bool.
From Stdlib Require Import DecimalString DecimalN DecimalZ.
From stdpp Require Import base option list strings.

Open Scope string_scope.

(** ** Errors and the exception monad *)

Inductive error : Type :=
| EmptyDataError                      (* pandas.errors.EmptyDataError *)
| ParserError                         (* pandas.errors.ParserError *)
| KeyError (key : string)             (* df[key], row[key] on a missing label *)
| AttributeError                      (* .dt on a column that holds no dates *)
| LengthMismatch                      (* df[c] = s with len(s) <> len(df) *)
| DateParseError (text : string)      (* the ValueError of pd.to_datetime *)
| ValueError (msg : string)           (* raise ValueError(msg) *)
| DatabaseError (column : string).    (* psycopg2.Error raised by execute *)

Inductive result (A : Type) : Type :=
| Ok (a : A)
| Err (e : error).
Arguments Ok {A} a.
Arguments Err {A} e.

#[global] Instance result_ret : MRet result := fun _ a => Ok a.
#[global] Instance result_bind : MBind result := fun _ _ f m =>
  match m with
  | Ok a => f a
  | Err e => Err e
  end.

Definition is_ok {A} (r : result A) : bool :=
  match r with Ok _ => true | Err _ => false end.

(** ** Text helpers *)

Definition is_digit (c : ascii) : bool :=
  (48 <=? nat_of_ascii c)%nat && (nat_of_ascii c <=? 57)%nat.

(* isspace_ascii of the pandas tokenizer: space, \t, \n, \v, \f, \r *)
Definition is_space (c : ascii) : bool :=
  (nat_of_ascii c =? 32)%nat ||
  ((9 <=? nat_of_ascii c)%nat && (nat_of_ascii c <=? 13)%nat).

Fixpoint all_digits (s : string) : bool :=
  match s with
  | EmptyString => true
  | String c r => is_digit c && all_digits r
  end.

Fixpoint lstrip (s : string) : string :=
  match s with
  | EmptyString => EmptyString
  | String c r => if is_space c then lstrip r else s
  end.

Fixpoint rstrip (s : string) : string :=
  match s with
  | EmptyString => EmptyString
  | String c r =>
      match rstrip r with
      | EmptyString => if is_space c then EmptyString else String c EmptyString
      | r' => String c r'
      end
  end.

Definition strip (s : string) : string := rstrip (lstrip s).

(* [split_at sep s]: the text before the first [sep], and the text after
   it when there is one. *)
Fixpoint split_at (sep : ascii) (s : string) : string * option string :=
  match s with
  | EmptyString => (EmptyString, None)
  | String c r =>
      if Ascii.eqb c sep then (EmptyString, Some r)
      else let '(a, b) := split_at sep r in (String c a, b)
  end.

(* the character [c] does not occur in [s] *)
Fixpoint lacks (c : ascii) (s : string) : bool :=
  match s with
  | EmptyString => true
  | String x r => negb (Ascii.eqb x c) && lacks c r
  end.

Definition N_of_digits (s : string) : N :=
  match NilEmpty.uint_of_string s with
  | Some u => N.of_uint u
  | None => 0%N
  end.

Definition string_of_N (n : N) : string := NilEmpty.string_of_uint (N.to_uint n).
Definition string_of_nat (n : nat) : string := NilEmpty.string_of_uint (Nat.to_uint n).
Definition string_of_Z (z : Z) : string := NilEmpty.string_of_int (Z.to_int z).

Fixpoint zeros (n : nat) : string :=
  match n with
  | O => EmptyString
  | S k => String "0" (zeros k)
  end.

(* zero-pad on the left to [width] characters, as %0<width>d *)
Definition zfill (width : nat) (s : string) : string :=
  zeros (width - String.length s) ++ s.

Fixpoint take_str (n : nat) (s : string) : string :=
  match n, s with
  | S k, String c r => String c (take_str k r)
  | _, _ => EmptyString
  end.

Fixpoint drop_str (n : nat) (s : string) : string :=
  match n, s with
  | S k, String _ r => drop_str k r
  | _, _ => s
  end.

(** ** Cell values *)

(* A float64 cell is modelled by the decimal it was read from:
   (-1)^dneg * dmant / 10^dscale, kept with the smallest scale.  The
   binary rounding of float64 is outside the model: the decimal is the
   float, as far as reading and writing go, when it has at most 15
   digits ([plain_number] below). *)
Record dec : Type := Dec { dneg : bool; dmant : N; dscale : nat }.

Record date : Type := Date { dyear : Z; dmonth : Z; dday : Z }.

Inductive value : Type :=
| NaN                      (* numpy.nan and NaT: the missing value *)
| VInt (z : Z)
| VFloat (d : dec)
| VStr (s : string)
| VDate (d : date).

#[global] Instance dec_eq_dec : EqDecision dec.
Proof. solve_decision. Defined.
#[global] Instance date_eq_dec : EqDecision date.
Proof. solve_decision. Defined.
#[global] Instance value_eq_dec : EqDecision value.
Proof. solve_decision. Defined.

Definition is_nan (v : value) : bool :=
  match v with NaN => true | _ => false end.

Fixpoint normalize_dec (fuel : nat) (m : N) (scale : nat) : N * nat :=
  match fuel, scale with
  | S fuel', S scale' =>
      if (m mod 10 =? 0)%N then normalize_dec fuel' (m / 10)%N scale' else (m, scale)
  | _, _ => (m, scale)
  end.

Definition mk_dec (neg : bool) (m : N) (scale : nat) : dec :=
  let '(m', s') := normalize_dec scale m scale in Dec neg m' s'.

Definition dec_of_Z (z : Z) : dec := Dec (z <? 0)%Z (Z.abs_N z) 0.

(* repr(float) in fixed notation: at least one digit on each side of
   the point.  This is the text Python writes for a float of at most 15
   significant digits that is zero or lies between 1e-4 and 1e16; the
   exponent notation of the other floats, and the rounding to 17
   digits, are outside the model. *)
Definition render_dec (d : dec) : string :=
  let ds := zfill (S (dscale d)) (string_of_N (dmant d)) in
  let k := (String.length ds - dscale d)%nat in
  let frac := drop_str k ds in
  (if dneg d then "-" else "") ++ take_str k ds ++ "." ++
  (match frac with EmptyString => "0" | _ => frac end).

Definition render_date (d : date) : string :=
  zfill 4 (string_of_Z (dyear d)) ++ "-" ++
  zfill 2 (string_of_Z (dmonth d)) ++ "-" ++
  zfill 2 (string_of_Z (dday d)).

(* The text [to_csv] writes for a cell (na_rep is the empty string). *)
Definition render_value (v : value) : string :=
  match v with
  | NaN => ""
  | VInt z => string_of_Z z
  | VFloat d => render_dec d
  | VStr s => s
  | VDate d => render_date d
  end.

(** ** Number literals of [read_csv] *)

(* A numeric literal: sign, integer digits, and the fractional digits
   when the decimal separator occurs.  read_csv reads more than these
   as numbers: literals with an exponent (1e5) and the words inf and
   infinity; they are outside the model, which takes them for text. *)
Record literal : Type :=
  Literal { lneg : bool; lint : string; lfrac : option string }.

Definition parse_literal (decimal : ascii) (s : string) : option literal :=
  let s := strip s in
  let '(neg, body) :=
    match s with
    | String c r =>
        if Ascii.eqb c "-" then (true, r)
        else if Ascii.eqb c "+" then (false, r) else (false, s)
    | EmptyString => (false, s)
    end in
  match split_at decimal body with
  | (ip, None) =>
      if all_digits ip && negb (String.eqb ip "")
      then Some (Literal neg ip None) else None
  | (ip, Some fp) =>
      if all_digits ip && all_digits fp &&
         negb (String.eqb ip "" && String.eqb fp "")
      then Some (Literal neg ip (Some fp)) else None
  end.

Definition literal_is_int (l : literal) : bool :=
  match lfrac l with None => true | Some _ => false end.

Definition literal_Z (l : literal) : Z :=
  let n := Z.of_N (N_of_digits (lint l)) in
  if lneg l then (- n)%Z else n.

Definition literal_dec (l : literal) : dec :=
  match lfrac l with
  | None => mk_dec (lneg l) (N_of_digits (lint l)) 0
  | Some fp => mk_dec (lneg l) (N_of_digits (lint l ++ fp)) (String.length fp)
  end.

(* The default na_values of read_csv. *)
Definition na_values : list string :=
  [ ""; "#N/A"; "#N/A N/A"; "#NA"; "-1.#IND"; "-1.#QNAN"; "-NaN"; "-nan";
    "1.#IND"; "1.#QNAN"; "<NA>"; "N/A"; "NA"; "NULL"; "NaN"; "None";
    "n/a"; "nan"; "null" ].

Definition is_na (s : string) : bool := bool_decide (s ∈ na_values).

(** ** Frames *)

Inductive dtype : Type := DInt | DFloat | DObject | DCategory | DDatetime.

#[global] Instance dtype_eq_dec : EqDecision dtype.
Proof. solve_decision. Defined.

Record Series : Type := MkSeries { sdtype : dtype; values : list value }.

Record DataFrame : Type :=
  MkFrame { nrows : nat; columns : list (string * Series) }.

Definition column_names (df : DataFrame) : list string := (columns df).*1.

Fixpoint alist_get {A} (k : string) (l : list (string * A)) : option A :=
  match l with
  | [] => None
  | (k', a) :: r => if String.eqb k' k then Some a else alist_get k r
  end.

(* replace the entry of [k] where it stands, or append a new entry *)
Fixpoint alist_set {A} (k : string) (a : A) (l : list (string * A)) : list (string * A) :=
  match l with
  | [] => [(k, a)]
  | (k', a') :: r =>
      if String.eqb k' k then (k', a) :: r else (k', a') :: alist_set k a r
  end.

(* df[name] *)
Definition getitem (name : string) (df : DataFrame) : result Series :=
  match alist_get name (columns df) with
  | Some s => Ok s
  | None => Err (KeyError name)
  end.

(* df[name] = s *)
Definition setitem (name : string) (s : Series) (df : DataFrame) : result DataFrame :=
  if (length (values s) =? nrows df)%nat
  then Ok (MkFrame (nrows df) (alist_set name s (columns df)))
  else Err LengthMismatch.

Inductive errors_mode : Type := Raise | Ignore.

(* df.drop(columns=labels, errors=mode) *)
Definition drop_cols (labels : list string) (mode : errors_mode) (df : DataFrame)
  : result DataFrame :=
  let kept := filter (fun c => c.1 ∉ labels) (columns df) in
  match mode with
  | Ignore => Ok (MkFrame (nrows df) kept)
  | Raise =>
      match filter (fun l => l ∉ column_names df) labels with
      | [] => Ok (MkFrame (nrows df) kept)
      | l :: _ => Err (KeyError l)
      end
  end.

(** ** CSV files and their reading and writing *)

(* The file as tokenised with its delimiter [sep]: the header line and
   the data records, each a list of field texts. *)
Record csv_file (sep : ascii) : Type :=
  MkCsv { header : list string; records : list (list string) }.
Arguments MkCsv {sep} header records.
Arguments header {sep} c.
Arguments records {sep} c.


(* the field of record [i] under column [c] *)
Fixpoint field_index (c : string) (hd : list string) : option nat :=
  match hd with
  | [] => None
  | h :: r => if String.eqb h c then Some 0%nat else S <$> field_index c r
  end.

Definition cell {sep} (f : csv_file sep) (i : nat) (c : string) : option string :=
  r ← records f !! i;
  j ← field_index c (header f);
  Some (default "" (r !! j)).

Inductive cell_kind : Type := KInt | KNum | KText.

Definition classify_cell (decimal : ascii) (s : string) : cell_kind :=
  match parse_literal decimal s with
  | Some l => if literal_is_int l then KInt else KNum
  | None => KText
  end.

(* Type inference of a column from the texts of its fields: int64,
   float64 or object.  Outside the model: the bool dtype of a column of
   the words true and false, the fall back to text of an integer beyond
   64 bits, and the inference chunk by chunk on a large file.  The
   model is exact on the columns of [plain_column] below, whose present
   fields are all plain numbers or all text. *)
Definition infer_dtype (decimal : ascii) (cells : list string) : dtype :=
  match cells with
  | [] => DObject
  | _ =>
      let present := filter (fun s => is_na s = false) cells in
      if forallb (fun s => match classify_cell decimal s with KInt => true | _ => false end) cells
      then DInt
      else if forallb (fun s => match classify_cell decimal s with KText => false | _ => true end) present
      then DFloat
      else DObject
  end.

Definition convert_cell (decimal : ascii) (t : dtype) (s : string) : value :=
  if is_na s then NaN
  else match t, parse_literal decimal s with
       | DInt, Some l => VInt (literal_Z l)
       | DFloat, Some l => VFloat (literal_dec l)
       | _, _ => VStr s
       end.

Definition read_column (decimal : ascii) (cells : list string) : Series :=
  let t := infer_dtype decimal cells in
  MkSeries t (convert_cell decimal t <$> cells).

(* the fields of column [j]; a record that is too short is padded with
   missing fields *)
Definition column_cells (j : nat) (recs : list (list string)) : list string :=
  (fun r => default "" (r !! j)) <$> recs.

(* pd.read_csv(path, sep=sep, decimal=decimal) *)
Definition read_csv (sep decimal : ascii) (f : csv_file sep) : result DataFrame :=
  match header f with
  | [] => Err EmptyDataError
  | _ =>
      if existsb (fun r => (length (header f) <? length r)%nat) (records f)
      then Err ParserError
      else Ok (MkFrame (length (records f))
                 (imap (fun j name => (name, read_column decimal (column_cells j (records f))))
                       (header f)))
  end.

(* df.to_csv(path, index=False) *)
Definition to_csv (df : DataFrame) : csv_file "," :=
  MkCsv (column_names df)
        ((fun i => (fun c => render_value (default NaN (values c.2 !! i))) <$> columns df)
           <$> seq 0 (nrows df)).

(** ** Stage 2: the cleaner *)

Definition drop_columns : list string :=
  [ "Complemento"; "Bairro"; "Numero Rua"; "Regiao - Sigla";
    "Estado - Sigla"; "Municipio"; "Nome da Rua"; "Valor de Compra" ].

Definition clean_data (raw : csv_file ";") : result (csv_file ",") :=
  df ← read_csv ";" "," raw;
  df ← drop_cols drop_columns Ignore df;
  Ok (to_csv df).

(** ** Stage 3: the transformer *)

Fixpoint mapM_result {A B} (f : A -> result B) (l : list A) : result (list B) :=
  match l with
  | [] => Ok []
  | a :: r => b ← f a; bs ← mapM_result f r; Ok (b :: bs)
  end.

Fixpoint foldM_result {A B} (f : B -> A -> result B) (b : B) (l : list A) : result B :=
  match l with
  | [] => Ok b
  | a :: r => b' ← f b a; foldM_result f b' r
  end.

Definition category_cols : list string :=
  [ "Revenda"; "CNPJ da Revenda"; "Cep"; "Produto"; "Unidade de Medida"; "Bandeira" ].

Definition date_col : string := "Data da Coleta".

(* s.astype('category'): the values stay, the column is marked *)
Definition astype_category (s : Series) : Series :=
  MkSeries DCategory (values s).

Definition digit_val (c : ascii) : Z := Z.of_nat (nat_of_ascii c - 48).

(* %d: 3[0-1]|[1-2]\d|0[1-9]|[1-9]| [1-9] *)
Definition parse_day (s : string) : option Z :=
  match s with
  | String c EmptyString =>
      if is_digit c && negb (Ascii.eqb c "0") then Some (digit_val c) else None
  | String c1 (String c2 EmptyString) =>
      if Ascii.eqb c1 " " then
        if is_digit c2 && negb (Ascii.eqb c2 "0") then Some (digit_val c2) else None
      else if is_digit c1 && is_digit c2 then
        let v := (10 * digit_val c1 + digit_val c2)%Z in
        if ((1 <=? v) && (v <=? 31))%Z then Some v else None
      else None
  | _ => None
  end.

(* %m: 1[0-2]|0[1-9]|[1-9] *)
Definition parse_month (s : string) : option Z :=
  match s with
  | String c EmptyString =>
      if is_digit c && negb (Ascii.eqb c "0") then Some (digit_val c) else None
  | String c1 (String c2 EmptyString) =>
      if is_digit c1 && is_digit c2 then
        let v := (10 * digit_val c1 + digit_val c2)%Z in
        if ((1 <=? v) && (v <=? 12))%Z then Some v else None
      else None
  | _ => None
  end.

(* %Y: \d\d\d\d *)
Definition parse_year (s : string) : option Z :=
  if all_digits s && (String.length s =? 4)%nat
  then Some (Z.of_N (N_of_digits s)) else None.

Definition is_leap (y : Z) : bool :=
  ((y mod 4 =? 0) && negb (y mod 100 =? 0) || (y mod 400 =? 0))%Z.

Definition days_in_month (y m : Z) : Z :=
  if (m =? 2)%Z then (if is_leap y then 29 else 28)
  else if ((m =? 4) || (m =? 6) || (m =? 9) || (m =? 11))%Z then 30
  else 31.

Definition date_leb (a b : date) : bool :=
  ((dyear a <? dyear b) ||
   ((dyear a =? dyear b) &&
    ((dmonth a <? dmonth b) || ((dmonth a =? dmonth b) && (dday a <=? dday b)))))%Z.

(* the midnights a datetime64[ns] can hold *)
Definition timestamp_min : date := Date 1677 9 22.
Definition timestamp_max : date := Date 2262 4 11.

(* strptime with the format %d/%m/%Y, the whole text being consumed *)
Definition parse_dmy (s : string) : option date :=
  match split_at "/" s with
  | (ds, Some r) =>
      match split_at "/" r with
      | (ms, Some ys) =>
          d ← parse_day ds;
          m ← parse_month ms;
          y ← parse_year ys;
          let dt := Date y m d in
          if (d <=? days_in_month y m)%Z && date_leb timestamp_min dt && date_leb dt timestamp_max
          then Some dt else None
      | _ => None
      end
  | _ => None
  end.

Definition nat_strings : list string := [ "NaT"; "nat"; "NAT"; "nan"; "NaN"; "NAN" ].

Definition to_datetime_value (v : value) : result value :=
  let parse t :=
    match parse_dmy t with
    | Some d => Ok (VDate d)
    | None => Err (DateParseError t)
    end in
  match v with
  | NaN => Ok NaN
  | VDate d => Ok (VDate d)
  | VStr t =>
      if String.eqb t "" || bool_decide (t ∈ nat_strings) then Ok NaN else parse t
  | VInt z => parse (string_of_Z z)
  | VFloat d => parse (render_dec d)
  end.

(* pd.to_datetime(s, format='%d/%m/%Y') *)
Definition to_datetime (s : Series) : result Series :=
  vs ← mapM_result to_datetime_value (values s);
  Ok (MkSeries DDatetime vs).

(* the year or the month of dates: integers, or floats when a date is
   missing *)
Definition field_series (fld : date -> Z) (vs : list value) : Series :=
  if existsb is_nan vs
  then MkSeries DFloat
         ((fun v => match v with VDate d => VFloat (dec_of_Z (fld d)) | _ => NaN end) <$> vs)
  else MkSeries DInt
         ((fun v => match v with VDate d => VInt (fld d) | _ => NaN end) <$> vs).

(* s.dt.year, s.dt.month *)
Definition dt_field (fld : date -> Z) (s : Series) : result Series :=
  match sdtype s with
  | DDatetime => Ok (field_series fld (values s))
  | _ => Err AttributeError
  end.

Definition mark_category (df : DataFrame) (col : string) : result DataFrame :=
  s ← getitem col df;
  setitem col (astype_category s) df.

Definition transform_frame (df : DataFrame) : result DataFrame :=
  df ← foldM_result mark_category df category_cols;
  s ← getitem date_col df;
  d ← to_datetime s;
  df ← setitem date_col d df;
  s ← getitem date_col df;
  y ← dt_field dyear s;
  df ← setitem "Year" y df;
  s ← getitem date_col df;
  m ← dt_field dmonth s;
  setitem "Month" m df.

Definition transform_data (cleaned : csv_file ",") : result (csv_file ",") :=
  df ← read_csv "," "." cleaned;
  df ← transform_frame df;
  Ok (to_csv df).

(** ** The database *)

Inductive sql_type : Type := TEXT | DATE | NUMERIC | INT.

(* the columns of CREATE TABLE IF NOT EXISTS fuels (...) *)
Inductive column : Type :=
| Retailer | Retailer_cnpj | Zip_code | Product | Collection_date
| Sale_price | Unit | Brand | Year | Month.

#[global] Instance column_eq_dec : EqDecision column.
Proof. solve_decision. Defined.

Definition column_type (c : column) : sql_type :=
  match c with
  | Retailer | Retailer_cnpj | Zip_code | Product | Unit | Brand => TEXT
  | Collection_date => DATE
  | Sale_price => NUMERIC
  | Year | Month => INT
  end.

(* A key constraint of a table: PRIMARY KEY or UNIQUE over some columns. *)
Record key_constraint : Type :=
  MkKey { key_primary : bool; key_columns : list column }.

(* The CREATE TABLE statement of the loader declares ten columns and no
   constraint. *)
Definition fuels_ddl_columns : list (column * sql_type) :=
  [ (Retailer, TEXT); (Retailer_cnpj, TEXT); (Zip_code, TEXT); (Product, TEXT);
    (Collection_date, DATE); (Sale_price, NUMERIC); (Unit, TEXT); (Brand, TEXT);
    (Year, INT); (Month, INT) ].
Definition fuels_ddl_constraints : list key_constraint := [].

(* What a row of iterrows holds and psycopg2 receives.  A frame whose
   columns are all int64 yields numpy.int64 scalars; a float64 scalar
   is a Python float. *)
Inductive py_value : Type :=
| PyStr (s : string)
| PyInt (z : Z)
| PyFloat (d : dec)
| PyNaN
| NpInt64 (z : Z).

(* The literal psycopg2 puts in the statement for a parameter. *)
Inductive sql_literal : Type :=
| LStr (s : string)      (* a quoted string *)
| LInt (z : Z)
| LFloat (d : dec)
| LNaN.                  (* 'NaN'::float *)

Definition adapt (v : py_value) : result sql_literal :=
  match v with
  | PyStr s => Ok (LStr s)
  | PyInt z => Ok (LInt z)
  | PyFloat d => Ok (LFloat d)
  | PyNaN => Ok LNaN
  | NpInt64 _ => Err (DatabaseError "can't adapt type 'numpy.int64'")
  end.

Module fuels.
(* A stored row; [None] is SQL NULL. *)
Record row (datum : Type) : Type :=
  Row { retailer : option datum; retailer_cnpj : option datum;
        zip_code : option datum; product : option datum;
        collection_date : option datum; sale_price : option datum;
        unit : option datum; brand : option datum;
        year : option datum; month : option datum }.
Arguments Row {datum}.
Arguments retailer {datum}.
Arguments retailer_cnpj {datum}.
Arguments zip_code {datum}.
Arguments product {datum}.
Arguments collection_date {datum}.
Arguments sale_price {datum}.
Arguments unit {datum}.
Arguments brand {datum}.
Arguments year {datum}.
Arguments month {datum}.
End fuels.

Definition row_get {datum} (c : column) (r : fuels.row datum) : option datum :=
  match c with
  | Retailer => fuels.retailer r
  | Retailer_cnpj => fuels.retailer_cnpj r
  | Zip_code => fuels.zip_code r
  | Product => fuels.product r
  | Collection_date => fuels.collection_date r
  | Sale_price => fuels.sale_price r
  | Unit => fuels.unit r
  | Brand => fuels.brand r
  | Year => fuels.year r
  | Month => fuels.month r
  end.

Definition is_null {datum} (x : option datum) : bool :=
  match x with None => true | Some _ => false end.

Record table (datum : Type) : Type :=
  MkTable { constraints : list key_constraint; rows : list (fuels.row datum) }.
Arguments MkTable {datum}.
Arguments constraints {datum}.
Arguments rows {datum}.

(* the tuple of parameters of one INSERT *)
Record insert_params : Type :=
  Params { p_revenda : py_value; p_cnpj : py_value; p_cep : py_value;
           p_produto : py_value; p_data : py_value; p_valor : py_value;
           p_unidade : py_value; p_bandeira : py_value;
           p_year : py_value; p_month : py_value }.

Inductive command : Type :=
| CreateTableIfNotExists
| Insert (ps : insert_params)
| SelectCount
| SelectCountNulls
| Commit.

(* A connection: the committed database ([None]: no table fuels), the
   state its open transaction sees, and the commands sent so far. *)
Record connection (datum : Type) : Type :=
  MkConn { durable : option (table datum);
           session : option (table datum);
           sent : list command }.
Arguments MkConn {datum}.
Arguments durable {datum}.
Arguments session {datum}.
Arguments sent {datum}.

Definition db_action (datum A : Type) : Type :=
  connection datum -> result A * connection datum.

Definition db_ret {datum A} (a : A) : db_action datum A := fun c => (Ok a, c).

Definition db_bind {datum A B} (m : db_action datum A) (f : A -> db_action datum B)
  : db_action datum B :=
  fun c =>
    match m c with
    | (Ok a, c') => f a c'
    | (Err e, c') => (Err e, c')
    end.

(* a Python computation that does not touch the connection *)
Definition db_lift {datum A} (r : result A) : db_action datum A := fun c => (r, c).

Notation "x <~ a ;; b" := (db_bind a (fun x => b))
  (at level 65, a at next level, right associativity).
Notation "a ;;; b" := (db_bind a (fun _ => b))
  (at level 65, right associativity).

(* psycopg2.connect(...) *)
Definition connect {datum} (db : option (table datum)) : connection datum :=
  MkConn db db [].

(* conn.commit() *)
Definition commit {datum} : db_action datum () :=
  fun c => (Ok (), MkConn (session c) (session c) (sent c ++ [Commit])).

Section Database.
Context {datum : Type} `{EqDecision datum}.

(* The server's conversion of a literal to a column type on
   assignment; [None] when the server rejects it. *)
Variable pg_cast : sql_type -> sql_literal -> option datum.

(* two rows agree on a key when no key field is NULL and all are equal *)
Definition key_conflict (k : key_constraint) (r r' : fuels.row datum) : bool :=
  forallb (fun c => match row_get c r, row_get c r' with
                    | Some a, Some b => bool_decide (a = b)
                    | _, _ => false
                    end) (key_columns k).

Definition key_violated (k : key_constraint) (old : list (fuels.row datum))
    (r : fuels.row datum) : bool :=
  (key_primary k && existsb (fun c => is_null (row_get c r)) (key_columns k))
  || existsb (key_conflict k r) old.

Definition cast_param (c : column) (l : sql_literal) : result (option datum) :=
  match pg_cast (column_type c) l with
  | Some d => Ok (Some d)
  | None => Err (DatabaseError "invalid input syntax")
  end.

(* the row INSERT INTO fuels (...) VALUES (%s, ..., %s) builds *)
Definition build_row (ps : insert_params) : result (fuels.row datum) :=
  l1 ← adapt (p_revenda ps); l2 ← adapt (p_cnpj ps); l3 ← adapt (p_cep ps);
  l4 ← adapt (p_produto ps); l5 ← adapt (p_data ps); l6 ← adapt (p_valor ps);
  l7 ← adapt (p_unidade ps); l8 ← adapt (p_bandeira ps);
  l9 ← adapt (p_year ps); l10 ← adapt (p_month ps);
  d1 ← cast_param Retailer l1; d2 ← cast_param Retailer_cnpj l2;
  d3 ← cast_param Zip_code l3; d4 ← cast_param Product l4;
  d5 ← cast_param Collection_date l5; d6 ← cast_param Sale_price l6;
  d7 ← cast_param Unit l7; d8 ← cast_param Brand l8;
  d9 ← cast_param Year l9; d10 ← cast_param Month l10;
  Ok (fuels.Row d1 d2 d3 d4 d5 d6 d7 d8 d9 d10).

Definition insert_into (t : table datum) (ps : insert_params) : result (table datum) :=
  r ← build_row ps;
  if existsb (fun k => key_violated k (rows t) r) (constraints t)
  then Err (DatabaseError "duplicate key value violates unique constraint")
  else Ok (MkTable (constraints t) (rows t ++ [r])).

(* cursor.execute("CREATE TABLE IF NOT EXISTS fuels (...)") *)
Definition execute_create : db_action datum () :=
  fun c =>
    let s := match session c with
             | Some t => Some t
             | None => Some (MkTable fuels_ddl_constraints [])
             end in
    (Ok (), MkConn (durable c) s (sent c ++ [CreateTableIfNotExists])).

(* cursor.execute("INSERT INTO fuels ...", params) *)
Definition execute_insert (ps : insert_params) : db_action datum () :=
  fun c =>
    let c' := MkConn (durable c) (session c) (sent c ++ [Insert ps]) in
    match session c with
    | None => (Err (DatabaseError "relation fuels does not exist"), c')
    | Some t =>
        match insert_into t ps with
        | Ok t' => (Ok (), MkConn (durable c) (Some t') (sent c ++ [Insert ps]))
        | Err e => (Err e, c')
        end
    end.

(* cursor.execute("SELECT COUNT( * ) FROM fuels;"); cursor.fetchone()[0] *)
Definition select_count : db_action datum nat :=
  fun c =>
    let c' := MkConn (durable c) (session c) (sent c ++ [SelectCount]) in
    match session c with
    | None => (Err (DatabaseError "relation fuels does not exist"), c')
    | Some t => (Ok (length (rows t)), c')
    end.

Definition critical_null (r : fuels.row datum) : bool :=
  is_null (fuels.retailer r) || is_null (fuels.product r)
  || is_null (fuels.sale_price r).

(* SELECT COUNT( * ) FROM fuels WHERE retailer IS NULL OR product IS NULL
   OR sale_price IS NULL; *)
Definition select_count_nulls : db_action datum nat :=
  fun c =>
    let c' := MkConn (durable c) (session c) (sent c ++ [SelectCountNulls]) in
    match session c with
    | None => (Err (DatabaseError "relation fuels does not exist"), c')
    | Some t => (Ok (length (filter (fun r => critical_null r = true) (rows t))), c')
    end.

(** ** Stage 4: the loader *)

(* the Series of one row: column label and value *)
Definition py_row : Type := list (string * py_value).

Definition is_numeric (t : dtype) : bool :=
  match t with DInt | DFloat => true | _ => false end.

(* the scalar of a cell in the row Series: the common dtype of the
   frame when all columns are numeric, else a Python object *)
Definition row_scalar (df : DataFrame) (v : value) : py_value :=
  let numeric := forallb (fun c => is_numeric (sdtype c.2)) (columns df) in
  let floats := existsb (fun c => bool_decide (sdtype c.2 = DFloat)) (columns df) in
  match v with
  | NaN => PyNaN
  | VStr s => PyStr s
  | VFloat d => PyFloat d
  | VInt z => if numeric then (if floats then PyFloat (dec_of_Z z) else NpInt64 z)
              else PyInt z
  | VDate d => PyStr (render_date d)
  end.

(* df.iterrows() *)
Definition iterrows (df : DataFrame) : list py_row :=
  (fun i => (fun c => (c.1, row_scalar df (default NaN (values c.2 !! i)))) <$> columns df)
    <$> seq 0 (nrows df).

(* row[label] *)
Definition row_getitem (label : string) (r : py_row) : result py_value :=
  match alist_get label r with
  | Some v => Ok v
  | None => Err (KeyError label)
  end.

Definition row_params (r : py_row) : result insert_params :=
  a ← row_getitem "Revenda" r; b ← row_getitem "CNPJ da Revenda" r;
  c ← row_getitem "Cep" r; d ← row_getitem "Produto" r;
  e ← row_getitem "Data da Coleta" r; f ← row_getitem "Valor de Venda" r;
  g ← row_getitem "Unidade de Medida" r; h ← row_getitem "Bandeira" r;
  i ← row_getitem "Year" r; j ← row_getitem "Month" r;
  Ok (Params a b c d e f g h i j).

(* for _, row in df.iterrows(): cursor.execute(INSERT, (row[...], ...)) *)
Fixpoint insert_rows (rs : list py_row) : db_action datum () :=
  match rs with
  | [] => db_ret ()
  | r :: rest =>
      ps <~ db_lift (row_params r) ;;
      execute_insert ps ;;;
      insert_rows rest
  end.

Definition load_session (df : DataFrame) : db_action datum () :=
  execute_create ;;;
  commit ;;;
  insert_rows (iterrows df) ;;;
  commit.

(* The run of the loader on the transformed file and the committed
   database: its outcome and the connection it leaves.  An exception
   leaves the function before any further commit; what the
   connection had not committed is lost with it. *)
Definition load_to_postgres (transformed : csv_file ",") (db : option (table datum))
  : result () * connection datum :=
  match read_csv "," "." transformed with
  | Err e => (Err e, connect db)
  | Ok df => load_session df (connect db)
  end.

(** ** Stage 5: the validator *)

Definition no_rows_message : string :=
  "⚠️ Validation failed: no rows in fuels table!".

Definition null_rows_message (null_count : nat) : string :=
  "⚠️ Validation failed: " ++ string_of_nat null_count ++
  " rows with critical null values!".

Definition validate_session : db_action datum () :=
  row_count <~ select_count ;;
  (if (row_count =? 0)%nat then db_lift (Err (ValueError no_rows_message)) else db_ret ()) ;;;
  null_count <~ select_count_nulls ;;
  (if (0 <? null_count)%nat
   then db_lift (Err (ValueError (null_rows_message null_count))) else db_ret ()).

Definition validate_db (db : option (table datum)) : result () * connection datum :=
  validate_session (connect db).

End Database.

(** ** Vocabulary of the statements *)

(* The files on which [read_csv] keeps the names of the header as they
   stand and has a column for every field: the names are distinct and
   not empty, and no record is longer than the header. *)
Definition csv_wf {sep} (f : csv_file sep) : bool :=
  negb (bool_decide (header f = []))
  && bool_decide (NoDup (header f))
  && forallb (fun h => negb (String.eqb h "")) (header f)
  && forallb (fun r => (length r <=? length (header f))%nat) (records f).

(* the dtype [read_csv] infers for the column [c] of a file *)
Definition csv_dtype {sep} (decimal : ascii) (f : csv_file sep) (c : string) : dtype :=
  match field_index c (header f) with
  | Some j => infer_dtype decimal (column_cells j (records f))
  | None => DObject
  end.


(* the texts of a date field that pandas takes for a missing date *)
Definition missing_date (s : string) : bool :=
  is_na s || bool_decide (s ∈ nat_strings).

(* the text of an integer of a column that is int64, or float64 when
   the column has a missing value *)
Definition int_text (as_float : bool) (z : Z) : string :=
  if as_float then render_dec (dec_of_Z z) else string_of_Z z.

Definition required_cols : list string := (category_cols ++ [date_col])%list.

(* every column of the frame has one value per row *)
Definition frame_ok (df : DataFrame) : Prop :=
  Forall (fun c => length (values c.2) = nrows df) (columns df).

(* the frame the transformer writes, given the frame with its columns
   marked and the dates of its date column *)
Definition transformed_frame (df : DataFrame) (ds : list value) : DataFrame :=
  MkFrame (nrows df)
    (alist_set "Month" (field_series dmonth ds)
       (alist_set "Year" (field_series dyear ds)
          (alist_set date_col (MkSeries DDatetime ds) (columns df)))).

(* no record of the file has a missing value under the label [c] *)
Definition no_null_in {sep} (c : string) (f : csv_file sep) : bool :=
  match field_index c (header f) with
  | Some j => forallb (fun s => negb (is_na s)) (column_cells j (records f))
  | None => true
  end.

(* the rows the second query of the validator counts *)
Definition null_rows {datum} (t : table datum) : list (fuels.row datum) :=
  filter (fun r => critical_null r = true) (rows t).

Definition is_select (c : command) : bool :=
  match c with SelectCount | SelectCountNulls => true | _ => false end.

Section Stored.
Context {datum : Type} `{EqDecision datum}.
Variable pg_cast : sql_type -> sql_literal -> option datum.

(* the rows the server builds from the rows of a frame *)
Definition stored_rows (df : DataFrame) : result (list (fuels.row datum)) :=
  mapM_result (fun r => ps ← row_params r; build_row pg_cast ps) (iterrows df).

(* the table an INSERT run starts from: the committed one, or the one
   CREATE TABLE IF NOT EXISTS makes *)
Definition table_or_new (db : option (table datum)) : table datum :=
  match db with
  | Some t => t
  | None => MkTable fuels_ddl_constraints []
  end.
End Stored.

(** ** A model of the server's casts, to run the loader on examples *)

Inductive sql_datum : Type :=
| DText (s : string)
| DDateV (d : date)
| DNumeric (d : dec)
| DNumericNaN
| DInteger (z : Z).

#[global] Instance sql_datum_eq_dec : EqDecision sql_datum.
Proof. solve_decision. Defined.

Definition two_digits (s : string) : option Z :=
  match s with
  | String c1 (String c2 EmptyString) =>
      if is_digit c1 && is_digit c2 then Some (10 * digit_val c1 + digit_val c2)%Z else None
  | _ => None
  end.

(* the ISO text YYYY-MM-DD of a date of the calendar *)
Definition parse_iso_date (s : string) : option date :=
  match split_at "-" s with
  | (ys, Some r) =>
      match split_at "-" r with
      | (ms, Some ds) =>
          y ← parse_year ys; m ← two_digits ms; d ← two_digits ds;
          if ((1 <=? m) && (m <=? 12) && (1 <=? d) && (d <=? days_in_month y m) && (1 <=? y))%Z
          then Some (Date y m d) else None
      | _ => None
      end
  | _ => None
  end.

Definition int4 (z : Z) : option sql_datum :=
  if ((- 2147483648 <=? z) && (z <=? 2147483647))%Z then Some (DInteger z) else None.

(* rounding to the nearest integer, ties to even *)
Definition round_dec (d : dec) : Z :=
  let p := (10 ^ Z.of_nat (dscale d))%Z in
  let m := Z.of_N (dmant d) in
  let q := (m / p)%Z in
  let r := (m mod p)%Z in
  let n := if (2 * r <? p)%Z then q
           else if (p <? 2 * r)%Z then (q + 1)%Z
           else if Z.even q then q else (q + 1)%Z in
  if dneg d then (- n)%Z else n.

Definition float8_out (d : dec) : string :=
  match dscale d with
  | O => (if dneg d then "-" else "") ++ string_of_N (dmant d)
  | _ => render_dec d
  end.

(* Assignment of a literal to a column type.  Dates are taken in ISO
   form and numbers as plain decimal literals; the other input syntaxes
   of the server are left out. *)
Definition pg_cast_model (t : sql_type) (l : sql_literal) : option sql_datum :=
  match t, l with
  | TEXT, LStr s => Some (DText s)
  | TEXT, LInt z => Some (DText (string_of_Z z))
  | TEXT, LFloat d => Some (DText (float8_out d))
  | TEXT, LNaN => Some (DText "NaN")
  | DATE, LStr s => DDateV <$> parse_iso_date s
  | DATE, _ => None
  | NUMERIC, LStr s => (fun l => DNumeric (literal_dec l)) <$> parse_literal "." s
  | NUMERIC, LInt z => Some (DNumeric (dec_of_Z z))
  | NUMERIC, LFloat d => Some (DNumeric d)
  | NUMERIC, LNaN => Some DNumericNaN
  | INT, LStr s =>
      l ← parse_literal "." s;
      if literal_is_int l then int4 (literal_Z l) else None
  | INT, LInt z => int4 z
  | INT, LFloat d => int4 (round_dec d)
  | INT, LNaN => None
  end.

(** ** Sample files *)

Definition raw_sample : csv_file ";" :=
  MkCsv [ "Regiao - Sigla"; "Revenda"; "CNPJ da Revenda"; "Bairro"; "Cep"; "Produto";
          "Data da Coleta"; "Valor de Venda"; "Valor de Compra";
          "Unidade de Medida"; "Bandeira" ]
        [ [ "SE"; "Posto A"; "12345"; "Centro"; "00000"; "Gasolina";
            "05/01/2025"; "5,99"; ""; "L"; "Ipiranga" ];
          [ "S"; "Posto B"; "67890"; ""; "01310"; "Etanol";
            "17/02/2025"; "4,10"; ""; "L"; "Branca" ] ].

Definition cleaned_sample : csv_file "," :=
  MkCsv [ "Revenda"; "CNPJ da Revenda"; "Cep"; "Produto"; "Data da Coleta";
          "Valor de Venda"; "Unidade de Medida"; "Bandeira" ]
        [ [ "Posto A"; "12345"; "0"; "Gasolina"; "05/01/2025"; "5.99"; "L"; "Ipiranga" ];
          [ "Posto B"; "67890"; "1310"; "Etanol"; "17/02/2025"; "4.1"; "L"; "Branca" ] ].


(* a cleaned file without the column Bandeira *)
Definition cleaned_no_brand : csv_file "," :=
  MkCsv [ "Revenda"; "CNPJ da Revenda"; "Cep"; "Produto"; "Data da Coleta";
          "Valor de Venda"; "Unidade de Medida" ]
        [ [ "Posto A"; "12345"; "0"; "Gasolina"; "05/01/2025"; "5.99"; "L" ] ].

Definition transformed_header : list string :=
  [ "Revenda"; "CNPJ da Revenda"; "Cep"; "Produto"; "Data da Coleta";
    "Valor de Venda"; "Unidade de Medida"; "Bandeira"; "Year"; "Month" ].

Definition transformed_sample : csv_file "," :=
  MkCsv transformed_header
        [ [ "Posto A"; "12345"; "0"; "Gasolina"; "2025-01-05"; "5.99"; "L"; "Ipiranga";
            "2025"; "1" ];
          [ "Posto B"; "67890"; "1310"; "Etanol"; "2025-02-17"; "4.1"; "L"; "Branca";
            "2025"; "2" ] ].

(* a transformed file with a header and no record *)
Definition transformed_empty : csv_file "," := MkCsv transformed_header [].

(* a table that holds one row without a product, and one complete row *)
Definition table_with_null : table sql_datum :=
  MkTable []
    [ fuels.Row (Some (DText "Posto A")) (Some (DText "12345")) (Some (DText "0"))
        None (Some (DDateV (Date 2025 1 5))) (Some (DNumeric (Dec false 599 2)))
        (Some (DText "L")) (Some (DText "Ipiranga"))
        (Some (DInteger 2025)) (Some (DInteger 1));
      fuels.Row (Some (DText "Posto B")) (Some (DText "67890")) (Some (DText "1310"))
        (Some (DText "Etanol")) (Some (DDateV (Date 2025 2 17)))
        (Some (DNumeric (Dec false 41 1)))
        (Some (DText "L")) (Some (DText "Branca"))
        (Some (DInteger 2025)) (Some (DInteger 2)) ].

(* the sale price of the second record is not a number *)
Definition transformed_bad_price : csv_file "," :=
  MkCsv transformed_header
        [ [ "Posto A"; "12345"; "0"; "Gasolina"; "2025-01-05"; "5.99"; "L"; "Ipiranga";
            "2025"; "1" ];
          [ "Posto B"; "67890"; "1310"; "Etanol"; "2025-02-17"; "n/d"; "L"; "Branca";
            "2025"; "2" ];
          [ "Posto C"; "13579"; "4000"; "Etanol"; "2025-02-18"; "4.2"; "L"; "Branca";
            "2025"; "2" ] ].

(* the frame the loader reads from a sample file *)
Definition frame_of (f : csv_file ",") : DataFrame :=
  match read_csv "," "." f with
  | Ok df => df
  | Err _ => MkFrame 0 []
  end.

(** ** Vocabulary of the further properties *)

(* the columns of the table, in the order of the INSERT statement *)
Definition all_columns : list column :=
  [ Retailer; Retailer_cnpj; Zip_code; Product; Collection_date;
    Sale_price; Unit; Brand; Year; Month ].

(* no column of the row is NULL *)
Definition row_complete {datum} (r : fuels.row datum) : bool :=
  forallb (fun c => negb (is_null (row_get c r))) all_columns.

(* the labels the loader looks up in every row, in the order of the
   tuple of parameters *)
Definition insert_labels : list string :=
  [ "Revenda"; "CNPJ da Revenda"; "Cep"; "Produto"; "Data da Coleta";
    "Valor de Venda"; "Unidade de Medida"; "Bandeira"; "Year"; "Month" ].

(* a transformed file whose second record has no retailer and no sale
   price *)
Definition transformed_missing_values : csv_file "," :=
  MkCsv transformed_header
        [ [ "Posto A"; "12345"; "0"; "Gasolina"; "2025-01-05"; "5.99"; "L"; "Ipiranga";
            "2025"; "1" ];
          [ ""; "67890"; "1310"; "Etanol"; "2025-02-17"; ""; "L"; "Branca";
            "2025"; "2" ] ].

(* the output of the transformer on a cleaned file without sale prices *)
Definition transformed_no_price : csv_file "," :=
  MkCsv [ "Revenda"; "CNPJ da Revenda"; "Cep"; "Produto"; "Data da Coleta";
          "Unidade de Medida"; "Bandeira"; "Year"; "Month" ]
        [ [ "Posto A"; "12345"; "0"; "Gasolina"; "2025-01-05"; "L"; "Ipiranga";
            "2025"; "1" ] ].

(* the table after CREATE TABLE IF NOT EXISTS and its commit, before
   any INSERT *)
Definition created {datum} (db : option (table datum)) : connection datum :=
  MkConn (Some (table_or_new db)) (Some (table_or_new db))
         [CreateTableIfNotExists; Commit].





(* a raw file whose second record has a date that is no date *)
Definition raw_bad_date : csv_file ";" :=
  MkCsv [ "Revenda"; "CNPJ da Revenda"; "Bairro"; "Cep"; "Produto";
          "Data da Coleta"; "Valor de Venda"; "Unidade de Medida"; "Bandeira" ]
        [ [ "Posto A"; "12345"; "Centro"; "00000"; "Gasolina";
            "05/01/2025"; "5,99"; "L"; "Ipiranga" ];
          [ "Posto B"; "67890"; ""; "01310"; "Etanol";
            "31/02/2025"; "4,10"; "L"; "Branca" ] ].

(** ** Stage 1 and the DAG *)

(* The answer of the remote site to requests.get(url): a status and a
   body.  The body is kept as the file it is, in the tokenised form of
   the other files. *)
Record response : Type :=
  MkResponse { status_code : nat; content : csv_file ";" }.

(* a request is answered, or raises (no connection, timeout, ...) *)
Inductive http_outcome : Type :=
| Responded (r : response)
| RequestFailed.

(* what makes a task fail *)
Inductive task_error : Type :=
| HTTPError (status : nat)            (* response.raise_for_status() *)
| RequestException                    (* requests.get raised *)
| FileNotFoundError (path : string)   (* a stage read a file that is not there *)
| Raised (e : error).                 (* the error of a stage *)

Inductive task_result : Type :=
| Done (xcom : string)                (* the value the callable returns *)
| Failed (e : task_error).

Definition AIRFLOW_RAW_DATA_PATH : string := "/opt/airflow/data/raw_data.csv".
Definition AIRFLOW_CLEAN_DATA_PATH : string := "/opt/airflow/data/clean_data.csv".
Definition AIRFLOW_TRANSFORMED_DATA_PATH : string :=
  "/opt/airflow/data/transformed_data.csv".

(* What the tasks of a run share: the answers the remote site gives to
   the requests to come, the three files at their fixed paths, and the
   committed database. *)
Record world (datum : Type) : Type :=
  MkWorld { remote : list http_outcome;
            raw_file : option (csv_file ";");
            clean_file : option (csv_file ",");
            transformed_file : option (csv_file ",");
            database : option (table datum) }.
Arguments MkWorld {datum}.
Arguments remote {datum}.
Arguments raw_file {datum}.
Arguments clean_file {datum}.
Arguments transformed_file {datum}.
Arguments database {datum}.

Definition task (datum : Type) : Type := world datum -> task_result * world datum.

(* response.raise_for_status(): 4xx and 5xx raise *)
Definition raise_for_status (r : response) : option task_error :=
  if (400 <=? status_code r)%nat && (status_code r <? 600)%nat
  then Some (HTTPError (status_code r)) else None.

(* extract_data: the body of a successful answer replaces the raw
   file *)
Definition extract_data {datum} : task datum :=
  fun w =>
    match remote w with
    | [] => (Failed RequestException, w)
    | RequestFailed :: rest =>
        (Failed RequestException,
         MkWorld rest (raw_file w) (clean_file w) (transformed_file w) (database w))
    | Responded r :: rest =>
        match raise_for_status r with
        | Some e =>
            (Failed e,
             MkWorld rest (raw_file w) (clean_file w) (transformed_file w) (database w))
        | None =>
            (Done "extract_complete",
             MkWorld rest (Some (content r)) (clean_file w) (transformed_file w)
                     (database w))
        end
    end.

(* the callables of the other four tasks, on the files and the
   database of the run *)
Definition task_clean {datum} : task datum :=
  fun w =>
    match raw_file w with
    | None => (Failed (FileNotFoundError AIRFLOW_RAW_DATA_PATH), w)
    | Some raw =>
        match clean_data raw with
        | Ok out =>
            (Done "clean_complete",
             MkWorld (remote w) (raw_file w) (Some out) (transformed_file w) (database w))
        | Err e => (Failed (Raised e), w)
        end
    end.

Definition task_transform {datum} : task datum :=
  fun w =>
    match clean_file w with
    | None => (Failed (FileNotFoundError AIRFLOW_CLEAN_DATA_PATH), w)
    | Some cleaned =>
        match transform_data cleaned with
        | Ok out =>
            (Done "transform_complete",
             MkWorld (remote w) (raw_file w) (clean_file w) (Some out) (database w))
        | Err e => (Failed (Raised e), w)
        end
    end.

Inductive task_id : Type := T_extract | T_clean | T_transform | T_load | T_validate.

(* the state of a DAG run when it is over *)
Inductive run_state : Type :=
| Success
| FailedAt (t : task_id) (e : task_error).

(* the rows of the table fuels, none when the table is absent *)
Definition rows_of {datum} (db : option (table datum)) : list (fuels.row datum) :=
  rows (table_or_new db).

Section Dag.
Context {datum : Type} `{EqDecision datum}.
Variable pg_cast : sql_type -> sql_literal -> option datum.

Definition task_load : task datum :=
  fun w =>
    match transformed_file w with
    | None => (Failed (FileNotFoundError AIRFLOW_TRANSFORMED_DATA_PATH), w)
    | Some transformed =>
        let run := load_to_postgres pg_cast transformed (database w) in
        (match run.1 with
         | Ok _ => Done "load_complete"
         | Err e => Failed (Raised e)
         end,
         MkWorld (remote w) (raw_file w) (clean_file w) (transformed_file w)
                 (durable run.2))
    end.

Definition task_validate : task datum :=
  fun w =>
    let run := validate_db (database w) in
    (match run.1 with
     | Ok _ => Done "validate_complete"
     | Err e => Failed (Raised e)
     end,
     MkWorld (remote w) (raw_file w) (clean_file w) (transformed_file w)
             (durable run.2)).

(* default_args: 'retries': 1 *)
Definition retries : nat := 1.

(* a task is tried again, up to [n] more times, while it fails *)
Fixpoint run_task (n : nat) (t : task datum) (w : world datum)
  : task_result * world datum :=
  match t w with
  | (Done v, w') => (Done v, w')
  | (Failed e, w') =>
      match n with
      | O => (Failed e, w')
      | S k => run_task k t w'
      end
  end.

(* t1 >> t2 >> ...: a task runs when the one before it has succeeded *)
Fixpoint run_chain (ts : list (task_id * task datum)) (w : world datum)
  : run_state * world datum :=
  match ts with
  | [] => (Success, w)
  | (id, t) :: rest =>
      match run_task retries t w with
      | (Done _, w') => run_chain rest w'
      | (Failed e, w') => (FailedAt id e, w')
      end
  end.

(* task_extract >> task_clean >> task_transform >> task_load >> task_validate *)
Definition etl_fuels : world datum -> run_state * world datum :=
  run_chain [ (T_extract, extract_data); (T_clean, task_clean);
              (T_transform, task_transform); (T_load, task_load);
              (T_validate, task_validate) ].
End Dag.

(* a world whose remote site answers 503, then the sample file *)
Definition world_sample : world sql_datum :=
  MkWorld [ Responded (MkResponse 503 (MkCsv [] []));
            Responded (MkResponse 200 raw_sample) ]
          None None (Some transformed_bad_price) None.

(** ** The columns on which the reading and the writing are exact *)












(** * Properties *)

(** ** Association lists and frames *)

Section AssocLists.
Context {A : Type}.
Implicit Types (l : list (string * A)) (k c : string).

Lemma alist_get_index c l :
  alist_get c l = j ← field_index c l.*1; snd <$> l !! j.
Proof.
  induction l as [|[k a] l IH]; [done|].
  cbn. destruct (String.eqb k c); [done|].
  rewrite IH. by destruct (field_index c l.*1).
Qed.

Lemma alist_get_Some_elem c l a : alist_get c l = Some a -> c ∈ l.*1.
Proof.
  induction l as [|[k x] l IH]; [done|]. cbn.
  destruct (String.eqb_spec k c) as [->|]; [left|right]; auto.
Qed.

Lemma alist_get_None c l : alist_get c l = None <-> c ∉ l.*1.
Proof.
  induction l as [|[k x] l IH]; cbn.
  - split; [intros _; apply not_elem_of_nil | done].
  - rewrite not_elem_of_cons.
    destruct (String.eqb_spec k c) as [->|Hne]; [split; [done|tauto]|].
    rewrite IH. split; [by split|tauto].
Qed.



Lemma alist_get_set_eq k a l : alist_get k (alist_set k a l) = Some a.
Proof.
  induction l as [|[k' a'] l IH]; cbn.
  - by rewrite String.eqb_refl.
  - destruct (String.eqb k' k) eqn:E; cbn; by rewrite E.
Qed.

Lemma alist_get_set_ne k c a l :
  k ≠ c -> alist_get c (alist_set k a l) = alist_get c l.
Proof.
  intros Hne. induction l as [|[k' a'] l IH]; cbn.
  - by destruct (String.eqb_spec k c).
  - destruct (String.eqb_spec k' k) as [->|]; cbn.
    + by destruct (String.eqb_spec k c).
    + by rewrite IH.
Qed.

Lemma names_set k a l :
  (alist_set k a l).*1 = if decide (k ∈ l.*1) then l.*1 else (l.*1 ++ [k])%list.
Proof.
  induction l as [|[k' a'] l IH]; cbn.
  - rewrite decide_False; [done|apply not_elem_of_nil].
  - destruct (String.eqb_spec k' k) as [->|Hne]; cbn.
    + rewrite decide_True; [done|left].
    + rewrite IH. destruct (decide (k ∈ l.*1)) as [Hin|Hin].
      * rewrite decide_True; [done|by right].
      * rewrite decide_False; [done|]. rewrite not_elem_of_cons. by split.
Qed.

Lemma Forall_alist_set (P : string * A -> Prop) k a l :
  Forall P l -> (forall k', P (k', a)) -> Forall P (alist_set k a l).
Proof.
  intros Hl Ha. induction Hl as [|[k' a'] l Hx Hl IH]; cbn.
  - by constructor.
  - destruct (String.eqb k' k); constructor; auto.
Qed.
End AssocLists.

Lemma field_index_lt c hd j : field_index c hd = Some j -> (j < length hd)%nat.
Proof.
  revert j. induction hd as [|h hd IH]; intros j; [done|]. cbn.
  destruct (String.eqb h c); [intros [= <-]; lia|].
  destruct (field_index c hd) as [j'|]; [|done].
  intros [= <-]. specialize (IH _ eq_refl). lia.
Qed.

Lemma field_index_elem c hd : c ∈ hd <-> is_Some (field_index c hd).
Proof.
  induction hd as [|h hd IH]; cbn.
  - split; [by intros ?%elem_of_nil | by intros [? ?]].
  - rewrite elem_of_cons. destruct (String.eqb_spec h c) as [->|Hne].
    + split; eauto.
    + rewrite fmap_is_Some, <- IH. split; [intros [?|?]; congruence || done | auto].
Qed.

Lemma imap_names {A} (g : nat -> A) (hd : list string) :
  (imap (fun j name => (name, g j)) hd).*1 = hd.
Proof.
  revert g. induction hd as [|h hd IH]; intros g; [done|].
  rewrite imap_cons, fmap_cons. cbn [fst]. f_equal. apply (IH (g ∘ S)).
Qed.

Lemma alist_get_imap {A} (g : nat -> A) (hd : list string) c :
  alist_get c (imap (fun j name => (name, g j)) hd) = g <$> field_index c hd.
Proof.
  revert g. induction hd as [|h hd IH]; intros g; [done|].
  rewrite imap_cons. cbn. destruct (String.eqb h c); [done|].
  change (imap _ hd) with (imap (fun j name => (name, (g ∘ S) j)) hd).
  rewrite (IH (g ∘ S)). by destruct (field_index c hd).
Qed.

(** ** Reading and writing files *)

Lemma csv_wf_inv {sep} (f : csv_file sep) :
  csv_wf f = true ->
  header f ≠ [] /\ NoDup (header f) /\
  Forall (fun r => (length r <= length (header f))%nat) (records f).
Proof.
  unfold csv_wf. rewrite !andb_true_iff, negb_true_iff, bool_decide_eq_false,
    bool_decide_eq_true, !forallb_forall.
  intros [[[H1 H2] _] H4]. repeat split; [done..|].
  apply Forall_forall. intros r Hr. apply Nat.leb_le, H4.
  by apply list_elem_of_In.
Qed.

Lemma read_csv_wf sep decimal (f : csv_file sep) :
  csv_wf f = true ->
  read_csv sep decimal f =
  Ok (MkFrame (length (records f))
        (imap (fun j name => (name, read_column decimal (column_cells j (records f))))
              (header f))).
Proof.
  intros (Hne & _ & Hlen)%csv_wf_inv. unfold read_csv.
  destruct (header f) as [|h hd] eqn:Hh; [done|].
  rewrite <- Hh in *.
  replace (existsb _ (records f)) with false; [done|].
  symmetry. apply not_true_iff_false. rewrite existsb_exists.
  intros (r & Hr & Hlt). apply Nat.ltb_lt in Hlt.
  rewrite Forall_forall in Hlen. apply list_elem_of_In, Hlen in Hr. lia.
Qed.

Lemma read_csv_shape sep decimal (f : csv_file sep) df :
  read_csv sep decimal f = Ok df ->
  nrows df = length (records f) /\ column_names df = header f /\
  Forall (fun c => length (values c.2) = nrows df) (columns df) /\
  forall c, alist_get c (columns df) =
            (fun j => read_column decimal (column_cells j (records f)))
              <$> field_index c (header f).
Proof.
  unfold read_csv. destruct (header f) as [|h hd] eqn:Hh; [done|]. rewrite <- Hh.
  destruct (existsb _ _); [done|]. intros [= <-]. cbn.
  split; [done|]. split; [apply imap_names|]. split.
  - apply Forall_forall. intros [k s] Hin.
    apply list_elem_of_lookup in Hin as [j Hj].
    rewrite list_lookup_imap in Hj.
    destruct (header f !! j); [|done]. injection Hj as <- <-. cbn.
    unfold column_cells. by rewrite !length_fmap.
  - intros c. apply alist_get_imap.
Qed.

Lemma cell_to_csv df i c :
  cell (to_csv df) i c =
  if decide (i < nrows df)%nat
  then (fun s => render_value (default NaN (values s !! i))) <$> alist_get c (columns df)
  else None.
Proof.
  unfold cell, to_csv. cbn. rewrite list_lookup_fmap.
  case_decide as Hi.
  - rewrite lookup_seq_lt by done. cbn.
    rewrite alist_get_index. unfold column_names.
    destruct (field_index c (columns df).*1) as [j|] eqn:Hj; [|done]. cbn.
    rewrite list_lookup_fmap.
    apply field_index_lt in Hj. rewrite length_fmap in Hj.
    destruct (lookup_lt_is_Some_2 (columns df) j Hj) as [[k s] ->]. done.
  - rewrite lookup_seq_ge by lia. done.
Qed.

Lemma length_records_to_csv df : length (records (to_csv df)) = nrows df.
Proof. unfold to_csv. cbn. by rewrite length_fmap, length_seq. Qed.

Lemma cell_read_column decimal (recs : list (list string)) j i :
  values (read_column decimal (column_cells j recs)) !! i =
  (fun r => convert_cell decimal (infer_dtype decimal (column_cells j recs))
              (default "" (r !! j))) <$> recs !! i.
Proof.
  unfold read_column, column_cells. cbn.
  rewrite !list_lookup_fmap. by destruct (recs !! i).
Qed.

Lemma cell_Some_inv {sep} (f : csv_file sep) i c s :
  cell f i c = Some s ->
  exists r j, records f !! i = Some r /\ field_index c (header f) = Some j /\
              s = default "" (r !! j).
Proof.
  unfold cell. destruct (records f !! i) as [r|]; [|done]. cbn.
  destruct (field_index c (header f)) as [j|]; [|done]. cbn.
  intros [= <-]. by exists r, j.
Qed.


(* the value a frame holds for a field of the file it was read from *)
Lemma read_csv_cell sep decimal (f : csv_file sep) df i c s :
  read_csv sep decimal f = Ok df -> cell f i c = Some s ->
  exists col, alist_get c (columns df) = Some col /\
              values col !! i = Some (convert_cell decimal (csv_dtype decimal f c) s) /\
              (i < nrows df)%nat.
Proof.
  intros (Hn & _ & _ & Hget)%read_csv_shape (r & j & Hr & Hj & ->)%cell_Some_inv.
  rewrite Hget, Hj. eexists. split; [done|].
  rewrite cell_read_column, Hr. unfold csv_dtype. rewrite Hj. split; [done|].
  rewrite Hn. by eapply lookup_lt_Some.
Qed.




Lemma infer_float_cells decimal cells s :
  infer_dtype decimal cells = DFloat -> s ∈ cells -> is_na s = false ->
  exists l, parse_literal decimal s = Some l.
Proof.
  unfold infer_dtype. destruct cells as [|s0 cells]; [done|].
  destruct (forallb _ (s0 :: cells)); [done|].
  destruct (forallb _ (filter _ _)) eqn:Hall; [|done].
  intros _ Hs Hna. rewrite forallb_forall in Hall.
  assert (s ∈ filter (fun s => is_na s = false) (s0 :: cells)) as Hin
    by (by apply list_elem_of_filter).
  apply list_elem_of_In, Hall in Hin. unfold classify_cell in Hin.
  destruct (parse_literal decimal s) as [l|]; [by exists l|done].
Qed.



(** ** The cleaner *)







(** ** Texts of numbers hold no slash *)

Lemma append_cons x a b : String x a ++ b = String x (a ++ b).
Proof. reflexivity. Qed.

Lemma lacks_app c a b : lacks c (a ++ b) = lacks c a && lacks c b.
Proof. induction a as [|x a IH]; [done|]. simpl. by rewrite IH, andb_assoc. Qed.

Lemma split_at_lacks c s : lacks c s = true -> split_at c s = (s, None).
Proof.
  induction s as [|x s IH]; [done|]. simpl.
  destruct (Ascii.eqb x c); [done|]. simpl. by intros ->%IH.
Qed.

Lemma split_at_Some c s a b :
  split_at c s = (a, Some b) -> s = a ++ String c b.
Proof.
  revert a. induction s as [|x s IH]; intros a; [done|]. simpl.
  destruct (Ascii.eqb_spec x c) as [->|].
  - by intros [= <- <-].
  - destruct (split_at c s) as [a' b']. intros [= <- ->].
    rewrite append_cons. f_equal. by apply IH.
Qed.

Lemma split_at_None c s a : split_at c s = (a, None) -> s = a.
Proof.
  revert a. induction s as [|x s IH]; intros a; [by intros [= <-]|]. simpl.
  destruct (Ascii.eqb x c); [done|].
  destruct (split_at c s) as [a' b']. intros [= <- ->]. f_equal. by apply IH.
Qed.

Lemma lacks_digits c s : is_digit c = false -> all_digits s = true -> lacks c s = true.
Proof.
  intros Hc. induction s as [|x s IH]; [done|]. simpl.
  intros [Hx Hs]%andb_true_iff. rewrite IH by done.
  destruct (Ascii.eqb_spec x c) as [->|]; [congruence|done].
Qed.

Lemma all_digits_uint u : all_digits (NilEmpty.string_of_uint u) = true.
Proof. induction u; simpl; auto. Qed.

Lemma lacks_slash_N n : lacks "/" (string_of_N n) = true.
Proof. apply lacks_digits; [done|apply all_digits_uint]. Qed.

Lemma lacks_slash_Z z : lacks "/" (string_of_Z z) = true.
Proof.
  unfold string_of_Z. destruct (Z.to_int z) as [u|u]; simpl;
    (apply lacks_digits; [done|apply all_digits_uint]).
Qed.

Lemma lacks_zeros c n : Ascii.eqb "0" c = false -> lacks c (zeros n) = true.
Proof. intros Hc. induction n; cbn [lacks zeros]; [done|]. by rewrite Hc, IHn. Qed.

Lemma lacks_take c n s : lacks c s = true -> lacks c (take_str n s) = true.
Proof.
  revert n. induction s as [|x s IH]; intros [|n]; simpl; try done.
  intros [-> Hs]%andb_true_iff. simpl. by apply IH.
Qed.

Lemma lacks_drop c n s : lacks c s = true -> lacks c (drop_str n s) = true.
Proof.
  revert n. induction s as [|x s IH]; intros [|n]; simpl; try done.
  intros [_ Hs]%andb_true_iff. by apply IH.
Qed.

Lemma lacks_slash_dec d : lacks "/" (render_dec d) = true.
Proof.
  unfold render_dec.
  assert (lacks "/" (zfill (S (dscale d)) (string_of_N (dmant d))) = true) as Hz.
  { unfold zfill. by rewrite lacks_app, lacks_zeros, lacks_slash_N. }
  rewrite !lacks_app, lacks_take by done.
  pose proof (lacks_drop "/" (String.length (zfill (S (dscale d)) (string_of_N (dmant d)))
                              - dscale d) _ Hz) as Hd.
  destruct (drop_str _ _); [by destruct (dneg d)|].
  rewrite Hd. by destruct (dneg d).
Qed.

Lemma parse_dmy_lacks s : lacks "/" s = true -> parse_dmy s = None.
Proof. intros H. unfold parse_dmy. by rewrite split_at_lacks. Qed.

Lemma lacks_lstrip c s : is_space c = false -> lacks c (lstrip s) = lacks c s.
Proof.
  intros Hc. induction s as [|x s IH]; [done|]. simpl.
  destruct (is_space x) eqn:Hx; [|done]. rewrite IH.
  destruct (Ascii.eqb_spec x c) as [->|]; [congruence|done].
Qed.

Lemma lacks_rstrip c s : is_space c = false -> lacks c (rstrip s) = lacks c s.
Proof.
  intros Hc. induction s as [|x s IH]; [done|]. simpl.
  destruct (rstrip s) as [|y r] eqn:Hr.
  - rewrite <- IH. destruct (is_space x) eqn:Hx; simpl; [|by rewrite andb_true_r].
    destruct (Ascii.eqb_spec x c) as [->|]; [congruence|done].
  - by rewrite <- IH.
Qed.

Lemma lacks_strip c s : is_space c = false -> lacks c (strip s) = lacks c s.
Proof. intros Hc. unfold strip. by rewrite lacks_rstrip, lacks_lstrip. Qed.

(* a numeric literal written with a point holds no slash *)
Lemma literal_lacks_slash s l : parse_literal "." s = Some l -> lacks "/" s = true.
Proof.
  unfold parse_literal. rewrite <- (lacks_strip "/" s) by done.
  set (t := strip s). clearbody t.
  assert (forall body neg,
    match split_at "." body with
    | (ip, None) =>
        if all_digits ip && negb (String.eqb ip "")
        then Some (Literal neg ip None) else None
    | (ip, Some fp) =>
        if all_digits ip && all_digits fp &&
           negb (String.eqb ip "" && String.eqb fp "")
        then Some (Literal neg ip (Some fp)) else None
    end = Some l -> lacks "/" body = true) as Hbody.
  { intros body neg. destruct (split_at "." body) as [ip [fp|]] eqn:Hs.
    - apply split_at_Some in Hs as ->.
      destruct (all_digits ip) eqn:Hip; [|done].
      destruct (all_digits fp) eqn:Hfp; [|done]. intros _.
      rewrite lacks_app. simpl. by rewrite !lacks_digits.
    - apply split_at_None in Hs as ->.
      destruct (all_digits ip) eqn:Hip; [|done]. intros _.
      by apply lacks_digits. }
  destruct t as [|x t]; [by intros _|].
  destruct (Ascii.eqb_spec x "-") as [->|Hm]; [by intros H%Hbody|].
  destruct (Ascii.eqb_spec x "+") as [->|Hp]; [by intros H%Hbody|].
  apply Hbody.
Qed.

(** ** Sequencing *)

Section MapM.
Context {A B : Type} (f : A -> result B).

Lemma mapM_result_Ok l l' :
  mapM_result f l = Ok l' ->
  length l' = length l /\
  forall i a, l !! i = Some a -> exists b, f a = Ok b /\ l' !! i = Some b.
Proof.
  revert l'. induction l as [|a l IH]; intros l'; cbn.
  - intros [= <-]. by split.
  - destruct (f a) as [b|] eqn:Hb; [|done]. cbn.
    destruct (mapM_result f l) as [bs|]; [|done]. cbn. intros [= <-].
    destruct (IH _ eq_refl) as [Hlen Hlook]. split; [cbn; by rewrite Hlen|].
    intros [|i] x; cbn; [intros [= <-]; eauto|apply Hlook].
Qed.



End MapM.

(** ** The transformer *)

Lemma frame_ok_get df c s :
  frame_ok df -> alist_get c (columns df) = Some s -> length (values s) = nrows df.
Proof.
  unfold frame_ok. intros Hok Hget. rewrite alist_get_index in Hget.
  destruct (field_index c (columns df).*1) as [j|]; [|done]. cbn in Hget.
  destruct (columns df !! j) as [[k s']|] eqn:Hj; [|done]. injection Hget as ->.
  by apply (Forall_lookup_1 _ _ _ _ Hok Hj).
Qed.

Lemma setitem_ok df c s :
  length (values s) = nrows df ->
  setitem c s df = Ok (MkFrame (nrows df) (alist_set c s (columns df))).
Proof. intros Hlen. unfold setitem. by rewrite Hlen, Nat.eqb_refl. Qed.

Lemma frame_ok_set n cols c s :
  frame_ok (MkFrame n cols) -> length (values s) = n ->
  frame_ok (MkFrame n (alist_set c s cols)).
Proof. unfold frame_ok. cbn. intros Hok Hlen. by apply Forall_alist_set. Qed.

Lemma read_csv_frame_ok sep decimal (f : csv_file sep) df :
  read_csv sep decimal f = Ok df -> frame_ok df.
Proof. by intros (_ & _ & Hok & _)%read_csv_shape. Qed.

Lemma mark_category_ok df c s :
  frame_ok df -> alist_get c (columns df) = Some s ->
  mark_category df c =
  Ok (MkFrame (nrows df) (alist_set c (astype_category s) (columns df))).
Proof.
  intros Hok Hget. unfold mark_category, getitem. rewrite Hget. cbn.
  apply setitem_ok. cbn. by eapply frame_ok_get.
Qed.

(* marking columns changes neither the names nor the values *)
Lemma mark_all_ok l : forall df,
  frame_ok df -> (forall c, c ∈ l -> c ∈ column_names df) ->
  exists df', foldM_result mark_category df l = Ok df' /\
    nrows df' = nrows df /\ column_names df' = column_names df /\ frame_ok df' /\
    forall c, values <$> alist_get c (columns df') = values <$> alist_get c (columns df).
Proof.
  induction l as [|k l IH]; intros df Hok Hin; cbn.
  - by exists df.
  - destruct (alist_get k (columns df)) as [s|] eqn:Hk.
    2: { apply alist_get_None in Hk. destruct Hk. apply Hin. left. }
    rewrite (mark_category_ok _ _ _ Hok Hk). cbn.
    set (df1 := MkFrame _ _).
    assert (column_names df1 = column_names df) as Hnames.
    { unfold column_names, df1. cbn. rewrite names_set, decide_True; [done|].
      by eapply alist_get_Some_elem. }
    destruct (IH df1) as (df' & Hfold & Hn & Hnm & Hok' & Hval).
    + apply frame_ok_set; [by destruct df|]. cbn. by eapply frame_ok_get.
    + intros c Hc. rewrite Hnames. apply Hin. by right.
    + exists df'. split; [done|]. split; [done|]. split; [congruence|].
      split; [done|]. intros c. rewrite Hval. unfold df1. cbn.
      destruct (decide (k = c)) as [<-|Hne].
      * by rewrite alist_get_set_eq, Hk.
      * by rewrite alist_get_set_ne.
Qed.

Lemma mark_all_err l : forall df c,
  frame_ok df -> c ∈ l -> c ∉ column_names df ->
  exists k, foldM_result mark_category df l = Err (KeyError k) /\
            k ∈ l /\ k ∉ column_names df.
Proof.
  induction l as [|k l IH]; intros df c Hok Hc Hmiss; [by apply elem_of_nil in Hc|].
  cbn. destruct (alist_get k (columns df)) as [s|] eqn:Hk.
  - rewrite (mark_category_ok _ _ _ Hok Hk). cbn.
    set (df1 := MkFrame _ _).
    assert (column_names df1 = column_names df) as Hnames.
    { unfold column_names, df1. cbn. rewrite names_set, decide_True; [done|].
      by eapply alist_get_Some_elem. }
    apply elem_of_cons in Hc as [->|Hc].
    { destruct Hmiss. by eapply alist_get_Some_elem. }
    destruct (IH df1 c) as (k' & Hfold & Hk' & Hmiss').
    + apply frame_ok_set; [by destruct df|]. cbn. by eapply frame_ok_get.
    + done.
    + by rewrite Hnames.
    + exists k'. split; [done|]. split; [by right|congruence].
  - exists k. unfold mark_category, getitem. rewrite Hk. cbn.
    split; [done|]. split; [left|by apply alist_get_None].
Qed.

Lemma length_field_series fld ds : length (values (field_series fld ds)) = length ds.
Proof. unfold field_series. destruct (existsb _ _); cbn; by rewrite length_fmap. Qed.

Lemma transform_frame_run df1 s :
  frame_ok df1 -> alist_get date_col (columns df1) = Some s ->
  (s ← getitem date_col df1;
   d ← to_datetime s;
   df ← setitem date_col d df1;
   s ← getitem date_col df;
   y ← dt_field dyear s;
   df ← setitem "Year" y df;
   s ← getitem date_col df;
   m ← dt_field dmonth s;
   setitem "Month" m df) =
  match mapM_result to_datetime_value (values s) with
  | Ok ds => Ok (transformed_frame df1 ds)
  | Err e => Err e
  end.
Proof.
  intros Hok Hs. unfold getitem. rewrite Hs. cbn.
  unfold to_datetime. destruct (mapM_result _ _) as [ds|e] eqn:Hds; [|done]. cbn.
  apply mapM_result_Ok in Hds as [Hlen _].
  pose proof (frame_ok_get _ _ _ Hok Hs) as Hn.
  rewrite setitem_ok by (cbn; congruence). cbn.
  rewrite alist_get_set_eq. cbn.
  rewrite setitem_ok by (cbn; rewrite length_field_series; congruence). cbn.
  rewrite alist_get_set_ne by done.
  rewrite alist_get_set_eq. cbn.
  rewrite setitem_ok by (cbn; rewrite length_field_series; congruence). done.
Qed.

Lemma date_col_required : date_col ∈ required_cols.
Proof. unfold required_cols. apply elem_of_app. right. left. Qed.

Lemma category_required c : c ∈ category_cols -> c ∈ required_cols.
Proof. intros Hc. unfold required_cols. apply elem_of_app. by left. Qed.

Lemma transform_frame_missing df c :
  frame_ok df -> c ∈ required_cols -> c ∉ column_names df ->
  exists k, transform_frame df = Err (KeyError k) /\
            k ∈ required_cols /\ k ∉ column_names df.
Proof.
  intros Hok Hc Hmiss. unfold transform_frame.
  destruct (decide (Forall (fun k => k ∈ column_names df) category_cols)) as [Hall|Hex].
  - destruct (mark_all_ok category_cols df Hok) as (df1 & -> & _ & Hnames & _).
    { intros k Hk. by eapply Forall_forall in Hall. }
    cbn. unfold required_cols in Hc. apply elem_of_app in Hc as [Hc|Hc].
    { destruct Hmiss. by eapply Forall_forall in Hall. }
    apply list_elem_of_singleton in Hc as ->.
    assert (alist_get date_col (columns df1) = None) as Hnone.
    { apply alist_get_None. by rewrite <- Hnames in Hmiss. }
    unfold getitem. rewrite Hnone.
    exists date_col. split; [done|]. split; [exact date_col_required|done].
  - apply not_Forall_Exists in Hex; [|apply _].
    apply Exists_exists in Hex as (k & Hk & Hkm).
    destruct (mark_all_err category_cols df k Hok Hk Hkm) as (k' & -> & Hk' & Hm').
    exists k'. split; [done|]. split; [by apply category_required|done].
Qed.

Lemma transform_frame_present df :
  frame_ok df -> (forall c, c ∈ required_cols -> c ∈ column_names df) ->
  exists df1 s,
    nrows df1 = nrows df /\ column_names df1 = column_names df /\
    (forall c, values <$> alist_get c (columns df1) = values <$> alist_get c (columns df)) /\
    alist_get date_col (columns df1) = Some s /\
    transform_frame df =
      match mapM_result to_datetime_value (values s) with
      | Ok ds => Ok (transformed_frame df1 ds)
      | Err e => Err e
      end.
Proof.
  intros Hok Hall.
  destruct (mark_all_ok category_cols df Hok) as (df1 & Hfold & Hn & Hnames & Hok1 & Hval).
  { intros k Hk. by apply Hall, category_required. }
  destruct (alist_get date_col (columns df1)) as [s|] eqn:Hs.
  2: { apply alist_get_None in Hs. destruct Hs.
       change ((columns df1).*1) with (column_names df1). rewrite Hnames.
       apply Hall, date_col_required. }
  exists df1, s. repeat (split; [done|]).
  unfold transform_frame. rewrite Hfold. cbn [mbind result_bind].
  by apply transform_frame_run.
Qed.

Lemma transform_data_read (f : csv_file ",") df :
  read_csv "," "." f = Ok df ->
  transform_data f = df' ← transform_frame df; Ok (to_csv df').
Proof. intros Hr. unfold transform_data. by rewrite Hr. Qed.

(* the names of the frame the transformer writes *)
Lemma transformed_frame_names df ds :
  date_col ∈ column_names df ->
  column_names (transformed_frame df ds) =
  (column_names df ++ filter (fun c => c ∉ column_names df) ["Year"; "Month"])%list.
Proof.
  intros Hd. unfold transformed_frame, column_names. cbn [columns].
  rewrite !names_set. rewrite (decide_True (P := date_col ∈ _)) by done.
  rewrite !filter_cons, filter_nil.
  destruct (decide ("Year" ∈ (columns df).*1)) as [Hy|Hy].
  - rewrite (decide_False (P := "Year" ∉ _)) by tauto.
    destruct (decide ("Month" ∈ (columns df).*1)) as [Hm|Hm].
    + rewrite (decide_False (P := "Month" ∉ _)) by tauto. by rewrite app_nil_r.
    + by rewrite (decide_True (P := "Month" ∉ _)) by done.
  - rewrite (decide_True (P := "Year" ∉ _)) by done.
    destruct (decide ("Month" ∈ (columns df).*1)) as [Hm|Hm].
    + rewrite (decide_False (P := "Month" ∉ _)) by tauto.
      rewrite decide_True; [done|]. apply elem_of_app. by left.
    + rewrite (decide_True (P := "Month" ∉ _)) by done.
      rewrite decide_False; [by rewrite <- app_assoc|].
      rewrite elem_of_app, list_elem_of_singleton. intros [?|?]; done.
Qed.

(* the columns of the frame the transformer writes *)
Lemma transformed_frame_get df ds c :
  alist_get c (columns (transformed_frame df ds)) =
  if decide (c = "Month") then Some (field_series dmonth ds)
  else if decide (c = "Year") then Some (field_series dyear ds)
  else if decide (c = date_col) then Some (MkSeries DDatetime ds)
  else alist_get c (columns df).
Proof.
  unfold transformed_frame. cbn [columns].
  destruct (decide (c = "Month")) as [->|Hm]; [by rewrite alist_get_set_eq|].
  rewrite alist_get_set_ne by done.
  destruct (decide (c = "Year")) as [->|Hy]; [by rewrite alist_get_set_eq|].
  rewrite alist_get_set_ne by done.
  destruct (decide (c = date_col)) as [->|Hd]; [by rewrite alist_get_set_eq|].
  by rewrite alist_get_set_ne.
Qed.

(* What a successful run of the transformer is made of. *)
Lemma transform_data_Ok_inv (f : csv_file ",") out :
  transform_data f = Ok out ->
  exists df df1 s ds,
    read_csv "," "." f = Ok df /\
    (forall c, c ∈ required_cols -> c ∈ header f) /\
    nrows df1 = nrows df /\ column_names df1 = header f /\
    (forall c, values <$> alist_get c (columns df1) = values <$> alist_get c (columns df)) /\
    alist_get date_col (columns df1) = Some s /\
    mapM_result to_datetime_value (values s) = Ok ds /\
    out = to_csv (transformed_frame df1 ds).
Proof.
  intros Hout. destruct (read_csv "," "." f) as [df|] eqn:Hr.
  2: { unfold transform_data in Hout. by rewrite Hr in Hout. }
  rewrite (transform_data_read _ _ Hr) in Hout.
  pose proof (read_csv_frame_ok _ _ _ _ Hr) as Hok.
  pose proof (read_csv_shape _ _ _ _ Hr) as (_ & Hnames & _).
  destruct (decide (Forall (fun c => c ∈ column_names df) required_cols)) as [Hall|Hex].
  - rewrite Forall_forall in Hall.
    destruct (transform_frame_present df Hok Hall) as (df1 & s & H1 & H2 & H3 & H4 & H5).
    rewrite H5 in Hout.
    destruct (mapM_result to_datetime_value (values s)) as [ds|] eqn:Hds; [|done].
    cbn in Hout. injection Hout as <-.
    exists df, df1, s, ds. rewrite <- Hnames. repeat (split; [done|]). done.
  - apply not_Forall_Exists in Hex; [|apply _].
    apply Exists_exists in Hex as (k & Hk & Hkm).
    destruct (transform_frame_missing df k Hok Hk Hkm) as (k' & Hk' & _).
    by rewrite Hk' in Hout.
Qed.

(** ** Dates *)

Lemma nat_string_not_literal s : s ∈ nat_strings -> parse_literal "." s = None.
Proof.
  unfold nat_strings. rewrite !elem_of_cons, elem_of_nil.
  intros [->|[->|[->|[->|[->|[->|[]]]]]]]; reflexivity.
Qed.

Lemma is_na_empty : is_na "" = true.
Proof. reflexivity. Qed.

Lemma convert_cell_cases decimal t s :
  is_na s = false ->
  convert_cell decimal t s = VStr s \/
  exists l, parse_literal decimal s = Some l /\
            (convert_cell decimal t s = VInt (literal_Z l) \/
             convert_cell decimal t s = VFloat (literal_dec l)).
Proof.
  intros Hna. unfold convert_cell. rewrite Hna.
  destruct (parse_literal decimal s) as [l|]; [|by destruct t; left].
  destruct t; eauto.
Qed.

Lemma to_datetime_value_missing t s :
  missing_date s = true -> to_datetime_value (convert_cell "." t s) = Ok NaN.
Proof.
  unfold missing_date. intros [Hna|Hnat%bool_decide_eq_true]%orb_true_iff.
  - unfold convert_cell. by rewrite Hna.
  - unfold convert_cell. rewrite (nat_string_not_literal _ Hnat).
    destruct (is_na s); [done|].
    assert (to_datetime_value (VStr s) = Ok NaN) as H.
    { cbn. by rewrite (bool_decide_eq_true_2 _ Hnat), orb_true_r. }
    by destruct t.
Qed.

Lemma to_datetime_value_text s :
  missing_date s = false ->
  to_datetime_value (VStr s) =
  match parse_dmy s with
  | Some d => Ok (VDate d)
  | None => Err (DateParseError s)
  end.
Proof.
  unfold missing_date. intros [Hna Hnat]%orb_false_iff. cbn.
  rewrite Hnat, orb_false_r.
  destruct (String.eqb_spec s "") as [->|]; [by rewrite is_na_empty in Hna|done].
Qed.

Lemma to_datetime_value_present t s :
  missing_date s = false ->
  match parse_dmy s with
  | Some d => to_datetime_value (convert_cell "." t s) = Ok (VDate d)
  | None => exists txt, to_datetime_value (convert_cell "." t s) = Err (DateParseError txt)
  end.
Proof.
  intros Hmiss. pose proof Hmiss as [Hna _]%orb_false_iff.
  destruct (convert_cell_cases "." t s Hna) as [->|(l & Hl & Hv)].
  - rewrite to_datetime_value_text by done. destruct (parse_dmy s); eauto.
  - rewrite (parse_dmy_lacks s) by (by eapply literal_lacks_slash).
    destruct Hv as [-> | ->]; cbn.
    + rewrite parse_dmy_lacks by apply lacks_slash_Z. eauto.
    + rewrite parse_dmy_lacks by apply lacks_slash_dec. eauto.
Qed.


Lemma cell_exists {sep} (f : csv_file sep) i c :
  (i < length (records f))%nat -> c ∈ header f -> exists s, cell f i c = Some s.
Proof.
  intros Hi Hc. unfold cell.
  destruct (lookup_lt_is_Some_2 _ _ Hi) as [r ->].
  apply field_index_elem in Hc as [j ->]. cbn. eauto.
Qed.

Lemma cell_lt {sep} (f : csv_file sep) i c s :
  cell f i c = Some s -> (i < length (records f))%nat /\ c ∈ header f.
Proof.
  intros (r & j & Hr & Hj & _)%cell_Some_inv. split.
  - by eapply lookup_lt_Some.
  - apply field_index_elem. eauto.
Qed.

Lemma field_series_lookup fld ds i b :
  ds !! i = Some b ->
  values (field_series fld ds) !! i =
  Some (match b with
        | VDate d => if existsb is_nan ds then VFloat (dec_of_Z (fld d)) else VInt (fld d)
        | _ => NaN
        end).
Proof.
  intros Hb. unfold field_series.
  destruct (existsb is_nan ds); cbn; rewrite list_lookup_fmap, Hb; by destruct b.
Qed.

Lemma existsb_is_nan_lookup ds : 
  existsb is_nan ds = true <-> exists i, ds !! i = Some NaN.
Proof.
  rewrite existsb_exists. split.
  - intros (v & Hin & Hv). destruct v; try done.
    apply list_elem_of_In, list_elem_of_lookup in Hin. done.
  - intros [i Hi]. exists NaN. split; [|done].
    apply list_elem_of_In. by eapply list_elem_of_lookup_2.
Qed.

(* The dates of a successful run, row by row. *)
Lemma transform_data_dates (f : csv_file ",") df df1 s ds i txt :
  read_csv "," "." f = Ok df ->
  (forall c, values <$> alist_get c (columns df1) = values <$> alist_get c (columns df)) ->
  alist_get date_col (columns df1) = Some s ->
  mapM_result to_datetime_value (values s) = Ok ds ->
  cell f i date_col = Some txt ->
  exists b, ds !! i = Some b /\
    to_datetime_value (convert_cell "." (csv_dtype "." f date_col) txt) = Ok b.
Proof.
  intros Hr Hval Hs Hds Hcell.
  destruct (read_csv_cell _ _ _ _ _ _ _ Hr Hcell) as (col & Hcol & Hv & _).
  specialize (Hval date_col). rewrite Hs, Hcol in Hval. cbn in Hval.
  injection Hval as Hval. rewrite <- Hval in Hv.
  apply mapM_result_Ok in Hds as [_ Hlook].
  destruct (Hlook _ _ Hv) as (b & Hb & Hi). eauto.
Qed.



(** C7. In the output of the transformer every record whose collection
    date is present holds that date, parsed as day/month/year, and under
    Year and Month the year and the month of that date; a record without
    a date has empty fields there.  The two numbers are written as
    integers, or as floats when some record of the file has no date. *)
Theorem transform_data_year_month (cleaned : csv_file ",") out :
  csv_wf cleaned = true ->
  transform_data cleaned = Ok out ->
  exists as_float : bool,
    (as_float = true <->
     exists i s, cell cleaned i date_col = Some s /\ missing_date s = true) /\
    forall i s, cell cleaned i date_col = Some s ->
      if missing_date s
      then cell out i date_col = Some "" /\
           cell out i "Year" = Some "" /\ cell out i "Month" = Some ""
      else exists d, parse_dmy s = Some d /\
           cell out i date_col = Some (render_date d) /\
           cell out i "Year" = Some (int_text as_float (dyear d)) /\
           cell out i "Month" = Some (int_text as_float (dmonth d)).
Proof.
  intros _ (df & df1 & s0 & ds & Hr & Hreq & Hn & Hnames & Hval & Hs & Hds & ->)
    %transform_data_Ok_inv.
  pose proof (read_csv_shape _ _ _ _ Hr) as (Hrows & _).
  pose proof (mapM_result_Ok _ _ _ Hds) as [Hlen _].
  pose proof (fun c s => frame_ok_get df c s (read_csv_frame_ok _ _ _ _ Hr)) as Hcol.
  (* what the row [i] holds in the three columns of the output *)
  assert (forall i s, cell cleaned i date_col = Some s ->
    exists b, ds !! i = Some b /\
      to_datetime_value (convert_cell "." (csv_dtype "." cleaned date_col) s) = Ok b /\
      cell (to_csv (transformed_frame df1 ds)) i date_col = Some (render_value b) /\
      forall fld c, (c = "Year" /\ fld = dyear) \/ (c = "Month" /\ fld = dmonth) ->
        cell (to_csv (transformed_frame df1 ds)) i c =
        Some (render_value
                (match b with
                 | VDate d => if existsb is_nan ds then VFloat (dec_of_Z (fld d))
                              else VInt (fld d)
                 | _ => NaN
                 end))) as Hrow.
  { intros i s Hcell.
    destruct (transform_data_dates _ _ _ _ _ _ _ Hr Hval Hs Hds Hcell) as (b & Hb & Hconv).
    apply cell_lt in Hcell as [Hi _].
    exists b. split; [done|]. split; [done|]. split.
    - rewrite cell_to_csv. cbn [nrows transformed_frame].
      rewrite decide_True by lia. rewrite transformed_frame_get.
      repeat case_decide; try done. cbn. by rewrite Hb.
    - intros fld c Hc. rewrite cell_to_csv. cbn [nrows transformed_frame].
      rewrite decide_True by lia. rewrite transformed_frame_get.
      destruct Hc as [[-> ->]|[-> ->]]; repeat case_decide; try done;
        cbn; by erewrite field_series_lookup. }
  exists (existsb is_nan ds). split.
  - rewrite existsb_is_nan_lookup. split.
    + intros [i Hi].
      destruct (cell_exists cleaned i date_col) as [s Hcell].
      { apply lookup_lt_Some in Hi. 
        specialize (Hval date_col). rewrite Hs in Hval.
        destruct (alist_get date_col (columns df)) as [col|] eqn:Hc; [|done].
        cbn in Hval. injection Hval as Hval. specialize (Hcol _ _ Hc). 
        rewrite <- Hval in Hcol. lia. }
      { apply Hreq, date_col_required. }
      exists i, s. split; [done|].
      destruct (Hrow _ _ Hcell) as (b & Hb & Hconv & _).
      destruct (missing_date s) eqn:Hm; [done|].
      pose proof (to_datetime_value_present (csv_dtype "." cleaned date_col) s Hm) as Hp.
      destruct (parse_dmy s); [|destruct Hp as [? Hp]]; congruence.
    + intros (i & s & Hcell & Hm).
      destruct (Hrow _ _ Hcell) as (b & Hb & Hconv & _).
      rewrite to_datetime_value_missing in Hconv by done.
      injection Hconv as <-. eauto.
  - intros i s Hcell.
    destruct (Hrow _ _ Hcell) as (b & Hb & Hconv & Hdate & Hfld).
    destruct (missing_date s) eqn:Hm.
    + rewrite to_datetime_value_missing in Hconv by done. injection Hconv as <-.
      split; [done|]. split; [apply (Hfld dyear)|apply (Hfld dmonth)]; auto.
    + pose proof (to_datetime_value_present (csv_dtype "." cleaned date_col) s Hm) as Hp.
      destruct (parse_dmy s) as [d|]; [|destruct Hp as [? Hp]; congruence].
      exists d. split; [done|]. rewrite Hp in Hconv. injection Hconv as <-.
      split; [done|].
      rewrite (Hfld dyear "Year"), (Hfld dmonth "Month") by auto.
      unfold int_text. by destruct (existsb is_nan ds).
Qed.

Lemma transform_data_year_month_witness :
  exists as_float : bool,
    (as_float = true <->
     exists i s, cell cleaned_sample i date_col = Some s /\ missing_date s = true) /\
    forall i s, cell cleaned_sample i date_col = Some s ->
      if missing_date s
      then cell transformed_sample i date_col = Some "" /\
           cell transformed_sample i "Year" = Some "" /\
           cell transformed_sample i "Month" = Some ""
      else exists d, parse_dmy s = Some d /\
           cell transformed_sample i date_col = Some (render_date d) /\
           cell transformed_sample i "Year" = Some (int_text as_float (dyear d)) /\
           cell transformed_sample i "Month" = Some (int_text as_float (dmonth d)).
Proof.
  exact (transform_data_year_month cleaned_sample transformed_sample eq_refl eq_refl).
Defined.






(** C10. A cleaned file that lacks one of the six categorical columns
    or the date column makes the transformer fail; the error is the
    KeyError of a required column that the file lacks. *)
Theorem transform_data_missing_column (cleaned : csv_file ",") c :
  c ∈ required_cols -> c ∉ header cleaned ->
  is_ok (transform_data cleaned) = false /\
  (csv_wf cleaned = true ->
   exists k, transform_data cleaned = Err (KeyError k) /\
             k ∈ required_cols /\ k ∉ header cleaned).
Proof.
  intros Hc Hmiss.
  assert (forall df, read_csv "," "." cleaned = Ok df ->
    exists k, transform_data cleaned = Err (KeyError k) /\
              k ∈ required_cols /\ k ∉ header cleaned) as Hkey.
  { intros df Hr. pose proof (read_csv_shape _ _ _ _ Hr) as (_ & Hnames & _).
    destruct (transform_frame_missing df c (read_csv_frame_ok _ _ _ _ Hr) Hc)
      as (k & Hk & Hkr & Hkm); [by rewrite Hnames|].
    exists k. rewrite (transform_data_read _ _ Hr), Hk, <- Hnames. done. }
  split.
  - destruct (read_csv "," "." cleaned) as [df|e] eqn:Hr.
    + destruct (Hkey df eq_refl) as (k & -> & _). done.
    + unfold transform_data. by rewrite Hr.
  - intros Hwf. apply (Hkey _ (read_csv_wf _ _ _ Hwf)).
Qed.

Lemma transform_data_missing_column_witness :
  is_ok (transform_data cleaned_no_brand) = false /\
  (csv_wf cleaned_no_brand = true ->
   exists k, transform_data cleaned_no_brand = Err (KeyError k) /\
             k ∈ required_cols /\ k ∉ header cleaned_no_brand).
Proof.
  apply (transform_data_missing_column cleaned_no_brand "Bandeira").
  - apply (bool_decide_unpack _). by vm_compute.
  - apply (bool_decide_unpack _). by vm_compute.
Defined.

(** ** The database *)

(* the types of the columns are those of the CREATE TABLE statement *)
Lemma column_type_ddl c t : (c, t) ∈ fuels_ddl_columns -> column_type c = t.
Proof.
  unfold fuels_ddl_columns. rewrite !elem_of_cons, elem_of_nil.
  intros H. repeat (destruct H as [[= -> ->]|H]; [done|]). done.
Qed.

Lemma fuels_ddl_all_columns c : c ∈ fuels_ddl_columns.*1.
Proof. destruct c; cbn; rewrite !elem_of_cons; tauto. Qed.

(** ** The validator *)

Section ValidatorFacts.
Context {datum : Type}.
Implicit Types (t : table datum).

Lemma validate_db_run t :
  validate_db (Some t) =
  match rows t with
  | [] => (Err (ValueError no_rows_message), MkConn (Some t) (Some t) [SelectCount])
  | _ :: _ =>
      match null_rows t with
      | [] => (Ok (), MkConn (Some t) (Some t) [SelectCount; SelectCountNulls])
      | ns => (Err (ValueError (null_rows_message (length ns))),
               MkConn (Some t) (Some t) [SelectCount; SelectCountNulls])
      end
  end.
Proof.
  unfold validate_db, validate_session, db_bind, select_count, connect. cbn.
  destruct (rows t) as [|r rs] eqn:Hrows; [done|]. cbn.
  unfold select_count_nulls, null_rows. cbn. rewrite Hrows.
  destruct (filter _ (r :: rs)); done.
Qed.
Lemma null_rows_nil t :
  null_rows t = [] <-> forall r, r ∈ rows t -> critical_null r = false.
Proof.
  unfold null_rows. split.
  - intros Hnil r Hr. destruct (critical_null r) eqn:Hc; [|done].
    assert (r ∈ filter (fun r => critical_null r = true) (rows t)) as Hin
      by (by apply list_elem_of_filter).
    rewrite Hnil in Hin. by apply elem_of_nil in Hin.
  - intros Hall. induction (rows t) as [|r l IH]; [done|].
    rewrite filter_cons, (Hall r) by left. cbn.
    apply IH. intros r' Hr'. apply Hall. by right.
Qed.

Lemma validate_db_ok t :
  rows t ≠ [] -> (forall r, r ∈ rows t -> critical_null r = false) ->
  (validate_db (Some t)).1 = Ok ().
Proof.
  intros Hne Hall. rewrite validate_db_run.
  apply null_rows_nil in Hall. rewrite Hall.
  by destruct (rows t).
Qed.
End ValidatorFacts.

(** C2. On every state of the table fuels the validator raises its
    ValueError exactly when the table has no row or has a row whose
    retailer, product or sale price is NULL.  On an empty table the
    error is the one about no rows, raised after the first query alone;
    otherwise the message carries the number of rows with such a NULL.
    The validator sends two queries at most, both SELECT, commits
    nothing and leaves the table as it was. *)
Theorem validate_db_spec {datum : Type} (t : table datum) :
  let run := validate_db (Some t) in
  ((exists msg, run.1 = Err (ValueError msg)) <->
   rows t = [] \/ exists r, r ∈ rows t /\ critical_null r = true) /\
  (run.1 = Ok () <-> rows t ≠ [] /\ forall r, r ∈ rows t -> critical_null r = false) /\
  (rows t = [] ->
   run.1 = Err (ValueError no_rows_message) /\ sent run.2 = [SelectCount]) /\
  (rows t ≠ [] -> null_rows t ≠ [] ->
   run.1 = Err (ValueError (null_rows_message (length (null_rows t)))) /\
   null_rows_message (length (null_rows t)) =
     "⚠️ Validation failed: " ++ string_of_nat (length (null_rows t)) ++
     " rows with critical null values!" /\
   sent run.2 = [SelectCount; SelectCountNulls]) /\
  durable run.2 = Some t /\ session run.2 = Some t /\
  forallb is_select (sent run.2) = true /\ Commit ∉ sent run.2.
Proof.
  cbn zeta. rewrite validate_db_run.
  pose proof (null_rows_nil t) as Hnull.
  destruct (rows t) as [|r rs] eqn:Hrows.
  - cbn. repeat split; try done; eauto.
    + intros [? _]. done.
    + rewrite !elem_of_cons, elem_of_nil. intuition discriminate.
  - destruct (null_rows t) as [|n ns] eqn:Hns; cbn.
    + pose proof (proj1 Hnull eq_refl) as Hall. repeat split; try done.
      * intros [? [=]].
      * intros [[=]|(r' & Hr' & Hc)]. by rewrite (Hall r' Hr') in Hc.
      * rewrite !elem_of_cons, elem_of_nil. intuition discriminate.
    + assert (exists r', r' ∈ r :: rs /\ critical_null r' = true) as Hex.
      { exists n.
        assert (n ∈ null_rows t) as Hn by (rewrite Hns; left).
        unfold null_rows in Hn. rewrite Hrows in Hn.
        apply list_elem_of_filter in Hn. tauto. }
      repeat split; try done; eauto.
      * intros [_ Hall]. destruct Hex as (r' & Hr' & Hc). by rewrite (Hall r' Hr') in Hc.
      * rewrite !elem_of_cons, elem_of_nil. intuition discriminate.
Qed.

(** ** The loader *)

Section LoaderFacts.
Context {datum : Type} `{EqDecision datum}.
Variable pg_cast : sql_type -> sql_literal -> option datum.
Implicit Types (t : table datum) (c : connection datum).

Lemma build_row_not_null ps r :
  build_row pg_cast ps = Ok r -> critical_null r = false.
Proof.
  unfold build_row.
  repeat (match goal with
          | |- context [adapt ?p] => destruct (adapt p); [cbn|done]
          end).
  unfold cast_param.
  repeat (match goal with
          | |- context [pg_cast ?ty ?l] => destruct (pg_cast ty l); [cbn|done]
          end).
  by intros [= <-].
Qed.

(* on a table without constraints an INSERT appends the row it builds *)
Lemma insert_into_free t ps :
  constraints t = [] ->
  insert_into pg_cast t ps =
  r ← build_row pg_cast ps; Ok (MkTable [] (rows t ++ [r])).
Proof. intros Hc. unfold insert_into. rewrite Hc. by destruct (build_row pg_cast ps). Qed.

(* the inserts of rows that all succeed *)
Lemma insert_rows_ok rs : forall c t pss t',
  session c = Some t ->
  mapM_result row_params rs = Ok pss ->
  foldM_result (insert_into pg_cast) t pss = Ok t' ->
  insert_rows pg_cast rs c =
  (Ok (), MkConn (durable c) (Some t') (sent c ++ (Insert <$> pss))).
Proof.
  induction rs as [|r rs IH]; intros c t pss t' Hs Hps Hins; cbn in *.
  - injection Hps as <-. cbn in Hins. injection Hins as <-.
    unfold db_ret. rewrite app_nil_r, <- Hs. by destruct c.
  - destruct (row_params r) as [ps|] eqn:Hr; [|done]. cbn in Hps.
    destruct (mapM_result row_params rs) as [pss'|] eqn:Hrs; [|done].
    cbn in Hps. injection Hps as <-. cbn in Hins.
    destruct (insert_into pg_cast t ps) as [t1|] eqn:Ht1; [|done]. cbn in Hins.
    unfold db_bind, db_lift, execute_insert. rewrite Hs, Ht1.
    erewrite IH; [|done|done|done]. cbn. by rewrite <- app_assoc.
Qed.

(* the inserts up to the first row that fails *)
Lemma insert_rows_fail pre r post : forall c t pss t1 e,
  session c = Some t ->
  mapM_result row_params pre = Ok pss ->
  foldM_result (insert_into pg_cast) t pss = Ok t1 ->
  (ps ← row_params r; insert_into pg_cast t1 ps) = Err e ->
  insert_rows pg_cast (pre ++ r :: post) c =
  (Err e, MkConn (durable c) (Some t1)
            (sent c ++ (Insert <$> pss) ++
             match row_params r with Ok ps => [Insert ps] | Err _ => [] end)).
Proof.
  induction pre as [|r0 pre IH]; intros c t pss t1 e Hs Hps Hins Hfail; cbn in *.
  - injection Hps as <-. cbn in Hins. injection Hins as <-.
    unfold db_bind, db_lift, execute_insert.
    destruct (row_params r) as [ps|e'] eqn:Hr; cbn in Hfail.
    + rewrite Hs, Hfail. done.
    + injection Hfail as <-. rewrite app_nil_r, <- Hs. by destruct c.
  - destruct (row_params r0) as [ps0|] eqn:Hr0; [|done]. cbn in Hps.
    destruct (mapM_result row_params pre) as [pss'|] eqn:Hrs; [|done].
    cbn in Hps. injection Hps as <-. cbn in Hins.
    destruct (insert_into pg_cast t ps0) as [t0|] eqn:Ht0; [|done]. cbn in Hins.
    unfold db_bind, db_lift, execute_insert. rewrite Hs, Ht0.
    erewrite IH; [|done|done|done|done]. cbn. by rewrite <- app_assoc.
Qed.

Lemma load_session_start df db :
  load_session pg_cast df (connect db) =
  match insert_rows pg_cast (iterrows df)
          (MkConn (Some (table_or_new db)) (Some (table_or_new db))
                  [CreateTableIfNotExists; Commit]) with
  | (Ok _, c) => (Ok (), MkConn (session c) (session c) (sent c ++ [Commit]))
  | (Err e, c) => (Err e, c)
  end.
Proof.
  unfold load_session, db_bind, execute_create, commit, connect. cbn.
  destruct db as [t|]; cbn; by destruct (insert_rows _ _ _) as [[[]|] ?].
Qed.

(* the rows built on a table without constraints *)
Lemma stored_rows_inv rs new : forall t,
  constraints t = [] ->
  mapM_result (fun r => ps ← row_params r; build_row pg_cast ps) rs = Ok new ->
  exists pss, mapM_result row_params rs = Ok pss /\
    foldM_result (insert_into pg_cast) t pss = Ok (MkTable [] (rows t ++ new)).
Proof.
  revert new. induction rs as [|r rs IH]; intros new t Hc; cbn.
  - intros [= <-]. exists []. rewrite app_nil_r, <- Hc. by destruct t.
  - destruct (row_params r) as [ps|]; [|done]. cbn.
    destruct (build_row pg_cast ps) as [x|] eqn:Hx; [|done]. cbn.
    destruct (mapM_result _ rs) as [new'|] eqn:Hnew; [|done]. cbn.
    intros [= <-].
    destruct (IH new' (MkTable [] (rows t ++ [x])) eq_refl eq_refl) as (pss & -> & Hf).
    exists (ps :: pss). split; [done|]. cbn.
    rewrite insert_into_free, Hx by done. cbn. rewrite Hf. cbn.
    by rewrite <- app_assoc.
Qed.

Lemma stored_rows_not_null df new r :
  stored_rows pg_cast df = Ok new -> r ∈ new -> critical_null r = false.
Proof.
  unfold stored_rows. intros Hm Hr.
  apply list_elem_of_lookup in Hr as [i Hi].
  apply mapM_result_Ok in Hm as [Hlen Hlook].
  destruct (lookup_lt_is_Some_2 (iterrows df) i) as [pr Hpr].
  { rewrite <- Hlen. by eapply lookup_lt_Some. }
  destruct (Hlook _ _ Hpr) as (b & Hb & Hi'). simplify_eq.
  destruct (row_params pr) as [ps|]; [|done]. cbn in Hb.
  by eapply build_row_not_null.
Qed.

Lemma length_iterrows df : length (iterrows df) = nrows df.
Proof. unfold iterrows. by rewrite length_fmap, length_seq. Qed.

Lemma length_stored_rows df new :
  stored_rows pg_cast df = Ok new -> length new = nrows df.
Proof.
  intros [Hlen _]%mapM_result_Ok. by rewrite Hlen, length_iterrows.
Qed.

(* The run of the loader on a file whose rows the server accepts. *)
Lemma load_to_postgres_ok (f : csv_file ",") df db new :
  read_csv "," "." f = Ok df ->
  stored_rows pg_cast df = Ok new ->
  constraints (table_or_new db) = [] ->
  exists pss,
    mapM_result row_params (iterrows df) = Ok pss /\
    load_to_postgres pg_cast f db =
    (Ok (),
     let t' := MkTable [] (rows (table_or_new db) ++ new) in
     MkConn (Some t') (Some t')
       ([CreateTableIfNotExists; Commit] ++ (Insert <$> pss) ++ [Commit])).
Proof.
  intros Hr Hnew Hc. unfold load_to_postgres. rewrite Hr, load_session_start.
  destruct (stored_rows_inv _ _ _ Hc Hnew) as (pss & Hpss & Hfold).
  exists pss. split; [done|].
  erewrite insert_rows_ok; [|done|done|done]. cbn. by rewrite <- ?app_assoc.
Qed.
End LoaderFacts.

Lemma validate_db_spec_witness :
  let run := validate_db (Some table_with_null) in
  run.1 = Err (ValueError "⚠️ Validation failed: 1 rows with critical null values!") /\
  sent run.2 = [SelectCount; SelectCountNulls] /\ durable run.2 = Some table_with_null.
Proof.
  pose proof (validate_db_spec table_with_null) as (_ & _ & _ & H & Hd & _).
  destruct H as (H1 & _ & H2); [done|done|].
  cbn zeta. split; [exact H1|]. split; [exact H2|exact Hd].
Defined.

(** C3. The loader sends one INSERT per row, each in its turn, and
    commits once after the last of them.  When the parameters or the
    INSERT of a row fail, the run ends with that error: no INSERT is
    sent for the rows after it, nothing is committed after the table
    was created, and the committed table holds the rows it held before
    the run. *)
Theorem load_to_postgres_atomic {datum : Type} `{EqDecision datum}
    (pg_cast : sql_type -> sql_literal -> option datum)
    (transformed : csv_file ",") (df : DataFrame) (db : option (table datum)) :
  read_csv "," "." transformed = Ok df ->
  (forall pss t',
     mapM_result row_params (iterrows df) = Ok pss ->
     foldM_result (insert_into pg_cast) (table_or_new db) pss = Ok t' ->
     load_to_postgres pg_cast transformed db =
       (Ok (), MkConn (Some t') (Some t')
                 ([CreateTableIfNotExists; Commit] ++ (Insert <$> pss) ++ [Commit])%list) /\
     length pss = length (records transformed)) /\
  (forall pre r post pss t1 e,
     iterrows df = (pre ++ r :: post)%list ->
     mapM_result row_params pre = Ok pss ->
     foldM_result (insert_into pg_cast) (table_or_new db) pss = Ok t1 ->
     (ps ← row_params r; insert_into pg_cast t1 ps) = Err e ->
     exists c,
       load_to_postgres pg_cast transformed db = (Err e, c) /\
       durable c = Some (table_or_new db) /\
       sent c = ([CreateTableIfNotExists; Commit] ++ (Insert <$> pss) ++
                 match row_params r with Ok ps => [Insert ps] | Err _ => [] end)%list /\
       Commit ∉ drop 2 (sent c)).
Proof.
  intros Hr. split.
  - intros pss t' Hpss Hfold. split.
    + unfold load_to_postgres. rewrite Hr, load_session_start.
      erewrite insert_rows_ok; [|done|done|done]. cbn. by rewrite <- ?app_assoc.
    + apply mapM_result_Ok in Hpss as [-> _]. rewrite length_iterrows.
      by apply read_csv_shape in Hr as [-> _].
  - intros pre r post pss t1 e Hrows Hpss Hfold Hfail.
    unfold load_to_postgres. rewrite Hr, load_session_start, Hrows.
    erewrite insert_rows_fail; [|done|done|done|done].
    eexists. split; [done|]. cbn. split; [done|]. split; [done|].
    rewrite drop_0, elem_of_app, list_elem_of_fmap.
    intros [(ps & [=] & _)|Hin].
    destruct (row_params r); [|by apply elem_of_nil in Hin].
    apply list_elem_of_singleton in Hin. done.
Qed.

(** C9. The CREATE TABLE statement declares no primary key and no
    uniqueness constraint; on a table it created (or that is absent),
    a second run of the loader on the same file succeeds like the first
    and appends the same rows again: N rows become 2N. *)
Theorem load_to_postgres_twice {datum : Type} `{EqDecision datum}
    (pg_cast : sql_type -> sql_literal -> option datum)
    (transformed : csv_file ",") (df : DataFrame) (db : option (table datum))
    (new : list (fuels.row datum)) :
  read_csv "," "." transformed = Ok df ->
  stored_rows pg_cast df = Ok new ->
  constraints (table_or_new db) = fuels_ddl_constraints ->
  let run1 := load_to_postgres pg_cast transformed db in
  let run2 := load_to_postgres pg_cast transformed (durable run1.2) in
  fuels_ddl_constraints = [] /\
  run1.1 = Ok () /\ run2.1 = Ok () /\
  rows <$> durable run1.2 = Some (rows (table_or_new db) ++ new)%list /\
  rows <$> durable run2.2 = Some (rows (table_or_new db) ++ new ++ new)%list /\
  length new = length (records transformed) /\
  (rows (table_or_new db) = [] ->
   length <$> (rows <$> durable run2.2) = Some (2 * length (records transformed))%nat).
Proof.
  intros Hr Hnew Hc. cbn zeta.
  destruct (load_to_postgres_ok pg_cast _ _ db _ Hr Hnew Hc) as (pss & _ & Hrun1).
  rewrite Hrun1. cbn [fst snd durable].
  destruct (load_to_postgres_ok pg_cast _ _
              (Some (MkTable [] (rows (table_or_new db) ++ new))) _ Hr Hnew eq_refl)
    as (pss' & _ & Hrun2).
  rewrite Hrun2. cbn [fst snd durable table_or_new rows fmap option_fmap option_map].
  pose proof (length_stored_rows _ _ _ Hnew) as Hlen.
  apply read_csv_shape in Hr as [Hn _]. rewrite Hn in Hlen.
  repeat split; try done.
  - by rewrite <- app_assoc.
  - intros ->. cbn. rewrite length_app. f_equal. lia.
Qed.

(** C1, as the claim states it, fails on a transformed file without
    records: the loader succeeds and leaves no row, and the validator
    raises its error about an empty table. *)
Lemma load_empty_file_fails_validation :
  ~ (forall (transformed : csv_file ",") df new,
       csv_wf transformed = true ->
       read_csv "," "." transformed = Ok df ->
       no_null_in "Revenda" transformed = true ->
       no_null_in "Produto" transformed = true ->
       no_null_in "Valor de Venda" transformed = true ->
       stored_rows pg_cast_model df = Ok new ->
       let run := load_to_postgres pg_cast_model transformed None in
       run.1 = Ok () /\
       exists t, durable run.2 = Some t /\
                 length (rows t) = length (records transformed) /\
                 (validate_db (Some t)).1 = Ok ()).
Proof.
  intros H.
  destruct (H transformed_empty _ _ eq_refl eq_refl eq_refl eq_refl eq_refl eq_refl)
    as (_ & t & Ht & _ & Hv).
  vm_compute in Ht. injection Ht as <-. vm_compute in Hv. discriminate Hv.
Qed.

(** C1, amended.  For a transformed file with N >= 1 records, none of
    which has a missing retailer, product or sale price, and whose rows
    the server accepts, the loader run on an empty (or absent) table
    fuels commits exactly N rows, and the validator then succeeds. *)
Theorem load_then_validate {datum : Type} `{EqDecision datum}
    (pg_cast : sql_type -> sql_literal -> option datum)
    (transformed : csv_file ",") (df : DataFrame) (db : option (table datum))
    (new : list (fuels.row datum)) :
  csv_wf transformed = true ->
  read_csv "," "." transformed = Ok df ->
  (1 <= length (records transformed))%nat ->
  no_null_in "Revenda" transformed = true ->
  no_null_in "Produto" transformed = true ->
  no_null_in "Valor de Venda" transformed = true ->
  stored_rows pg_cast df = Ok new ->
  db = None \/ db = Some (MkTable fuels_ddl_constraints []) ->
  let run := load_to_postgres pg_cast transformed db in
  run.1 = Ok () /\
  exists t, durable run.2 = Some t /\ rows t = new /\
            length (rows t) = length (records transformed) /\
            (validate_db (Some t)).1 = Ok ().
Proof.
  intros _ Hr HN _ _ _ Hnew Hdb. cbn zeta.
  assert (constraints (table_or_new db) = [] /\ rows (table_or_new db) = []) as [Hc Hrows]
    by (by destruct Hdb as [-> | ->]).
  destruct (load_to_postgres_ok pg_cast _ _ db _ Hr Hnew Hc) as (pss & _ & ->).
  cbn [fst snd durable]. rewrite Hrows. cbn [app].
  split; [done|]. eexists. split; [done|]. cbn [rows]. split; [done|].
  pose proof (length_stored_rows _ _ _ Hnew) as Hlen.
  apply read_csv_shape in Hr as [Hn _]. rewrite Hn in Hlen. split; [done|].
  apply validate_db_ok; cbn [rows].
  - intros ->. cbn in Hlen. lia.
  - intros r Hin. by eapply stored_rows_not_null.
Qed.

Lemma load_then_validate_witness :
  let run := load_to_postgres pg_cast_model transformed_sample None in
  run.1 = Ok () /\
  exists t, durable run.2 = Some t /\
            length (rows t) = length (records transformed_sample) /\
            (validate_db (Some t)).1 = Ok ().
Proof.
  destruct (load_then_validate pg_cast_model transformed_sample
              (frame_of transformed_sample) None
              (match stored_rows pg_cast_model (frame_of transformed_sample) with
               | Ok new => new
               | Err _ => []
               end))
    as (Hrun & t & Ht & _ & Hlen & Hval).
  - reflexivity.
  - reflexivity.
  - vm_compute. lia.
  - reflexivity.
  - reflexivity.
  - reflexivity.
  - reflexivity.
  - by left.
  - cbn zeta. split; [exact Hrun|]. exists t. split; [exact Ht|].
    split; [exact Hlen|exact Hval].
Defined.

Lemma load_to_postgres_atomic_witness :
  (exists c,
     load_to_postgres pg_cast_model transformed_bad_price None =
       (Err (DatabaseError "invalid input syntax"), c) /\
     durable c = Some (MkTable [] []) /\
     length (sent c) = 4%nat /\
     Commit ∉ drop 2 (sent c)) /\
  (exists c,
     load_to_postgres pg_cast_model transformed_sample None = (Ok (), c) /\
     length (sent c) = 5%nat).
Proof.
  split.
  - destruct (load_to_postgres_atomic pg_cast_model transformed_bad_price
                (frame_of transformed_bad_price) None eq_refl) as [_ Hfail].
    pose (rs := iterrows (frame_of transformed_bad_price)).
    pose (pss := match mapM_result row_params (take 1 rs) with
                 | Ok pss => pss
                 | Err _ => []
                 end).
    pose (t1 := match foldM_result (insert_into pg_cast_model) (MkTable [] []) pss with
                | Ok t => t
                | Err _ => MkTable [] []
                end).
    destruct (Hfail (take 1 rs) (default [] (rs !! 1%nat)) (drop 2 rs) pss t1
                (DatabaseError "invalid input syntax"))
      as (c & Hrun & Hd & Hsent & Hcommit).
    + reflexivity.
    + reflexivity.
    + reflexivity.
    + reflexivity.
    + exists c. split; [exact Hrun|]. split; [exact Hd|].
      split; [by rewrite Hsent|exact Hcommit].
  - destruct (load_to_postgres_atomic pg_cast_model transformed_sample
                (frame_of transformed_sample) None eq_refl) as [Hok _].
    pose (pss := match mapM_result row_params (iterrows (frame_of transformed_sample)) with
                 | Ok pss => pss
                 | Err _ => []
                 end).
    pose (t' := match foldM_result (insert_into pg_cast_model) (MkTable [] []) pss with
                | Ok t => t
                | Err _ => MkTable [] []
                end).
    destruct (Hok pss t') as [Hrun Hlen].
    + reflexivity.
    + reflexivity.
    + eexists. split; [exact Hrun|]. reflexivity.
Defined.

Lemma load_to_postgres_twice_witness :
  let run1 := load_to_postgres pg_cast_model transformed_sample None in
  let run2 := load_to_postgres pg_cast_model transformed_sample (durable run1.2) in
  run1.1 = Ok () /\ run2.1 = Ok () /\
  length <$> (rows <$> durable run2.2) = Some 4%nat.
Proof.
  destruct (load_to_postgres_twice pg_cast_model transformed_sample
              (frame_of transformed_sample) None
              (match stored_rows pg_cast_model (frame_of transformed_sample) with
               | Ok new => new
               | Err _ => []
               end) eq_refl eq_refl eq_refl)
    as (_ & H1 & H2 & _ & _ & _ & H6).
  cbn zeta. split; [exact H1|]. split; [exact H2|]. exact (H6 eq_refl).
Defined.

(** * Further properties *)

(** ** What a run of the loader leaves in the table *)

Section LoaderRuns.
Context {datum : Type} `{EqDecision datum}.
Variable pg_cast : sql_type -> sql_literal -> option datum.
Implicit Types (t : table datum) (c : connection datum).

Lemma build_row_complete ps r :
  build_row pg_cast ps = Ok r -> row_complete r = true.
Proof.
  unfold build_row.
  repeat (match goal with
          | |- context [adapt ?p] => destruct (adapt p); [cbn|done]
          end).
  unfold cast_param.
  repeat (match goal with
          | |- context [pg_cast ?ty ?l] => destruct (pg_cast ty l); [cbn|done]
          end).
  by intros [= <-].
Qed.

Lemma insert_into_Ok t ps t' :
  insert_into pg_cast t ps = Ok t' ->
  exists r, build_row pg_cast ps = Ok r /\
            t' = MkTable (constraints t) (rows t ++ [r]).
Proof.
  unfold insert_into. destruct (build_row pg_cast ps) as [r|]; [|done]. cbn.
  destruct (existsb _ _); [done|]. intros [= <-]. eauto.
Qed.

(* whatever their outcome, the inserts commit nothing and only append
   rows without NULL to the table the transaction sees *)
Lemma insert_rows_any rs : forall c t,
  session c = Some t ->
  exists new,
    durable (insert_rows pg_cast rs c).2 = durable c /\
    session (insert_rows pg_cast rs c).2 =
      Some (MkTable (constraints t) (rows t ++ new)) /\
    Forall (fun r => row_complete r = true) new /\
    ((insert_rows pg_cast rs c).1 = Ok () -> length new = length rs).
Proof.
  induction rs as [|r rs IH]; intros c t Hs; cbn.
  - exists []. rewrite app_nil_r, Hs. by destruct t.
  - unfold db_bind, db_lift, execute_insert. rewrite Hs.
    destruct (row_params r) as [ps|e]; cbn.
    2: { exists []. rewrite app_nil_r, Hs. by destruct t. }
    destruct (insert_into pg_cast t ps) as [t'|e] eqn:Hins; cbn.
    2: { exists []. rewrite app_nil_r. by destruct t. }
    apply insert_into_Ok in Hins as (x & Hx & ->).
    destruct (IH (MkConn (durable c) (Some (MkTable (constraints t) (rows t ++ [x])))
                         (sent c ++ [Insert ps])) _ eq_refl)
      as (new & Hd & Hsess & Hall & Hlen).
    exists (x :: new). cbn in *. split; [done|].
    split; [by rewrite Hsess, <- app_assoc|].
    split; [constructor; [by eapply build_row_complete|done]|].
    intros Hok. by rewrite Hlen.
Qed.

Lemma load_to_postgres_read_error (f : csv_file ",") db e :
  read_csv "," "." f = Err e -> load_to_postgres pg_cast f db = (Err e, connect db).
Proof. intros Hr. unfold load_to_postgres. by rewrite Hr. Qed.

(* the run of the loader after the file was read *)
Lemma load_to_postgres_run (f : csv_file ",") df db :
  read_csv "," "." f = Ok df ->
  exists new,
    durable (load_to_postgres pg_cast f db).2 =
      Some (MkTable (constraints (table_or_new db)) (rows (table_or_new db) ++ new)) /\
    Forall (fun r => row_complete r = true) new /\
    match (load_to_postgres pg_cast f db).1 with
    | Ok _ => length new = length (records f)
    | Err _ => new = []
    end.
Proof.
  intros Hr. unfold load_to_postgres. rewrite Hr, load_session_start.
  set (c0 := MkConn _ _ _).
  destruct (insert_rows_any (iterrows df) c0 (table_or_new db) eq_refl)
    as (new & Hd & Hsess & Hall & Hlen).
  destruct (insert_rows pg_cast (iterrows df) c0) as [[[]|e] c] eqn:Hrun; cbn in *.
  - exists new. rewrite Hsess. split; [done|]. split; [done|].
    rewrite Hlen, length_iterrows by done.
    by apply read_csv_shape in Hr as [-> _].
  - exists []. rewrite Hd, app_nil_r. split; [by destruct (table_or_new db)|done].
Qed.

(* a run of the loader depends on the committed database through the
   table it starts from alone *)
Lemma load_to_postgres_table (f : csv_file ",") db db' :
  table_or_new db = table_or_new db' ->
  (load_to_postgres pg_cast f db).1 = (load_to_postgres pg_cast f db').1 /\
  durable (load_to_postgres pg_cast f db).2 = durable (load_to_postgres pg_cast f db').2
  \/ exists e, read_csv "," "." f = Err e.
Proof.
  intros Ht. destruct (read_csv "," "." f) as [df|e] eqn:Hr; [left|eauto].
  unfold load_to_postgres. by rewrite Hr, !load_session_start, Ht.
Qed.
End LoaderRuns.

(** X1. A run of the loader only appends.  When the file cannot be read
    nothing is sent to the database.  Otherwise the table exists after
    the run with the constraints and the rows it had, followed by the
    rows of the run: none when the run failed, one per record of the
    file when it succeeded, and no column of an appended row is NULL. *)
Theorem load_to_postgres_appends {datum : Type} `{EqDecision datum}
    (pg_cast : sql_type -> sql_literal -> option datum)
    (transformed : csv_file ",") (db : option (table datum)) :
  let run := load_to_postgres pg_cast transformed db in
  match read_csv "," "." transformed with
  | Err e => run = (Err e, connect db)
  | Ok _ =>
      exists new,
        durable run.2 =
          Some (MkTable (constraints (table_or_new db))
                        (rows (table_or_new db) ++ new)) /\
        Forall (fun r => row_complete r = true) new /\
        match run.1 with
        | Ok _ => length new = length (records transformed)
        | Err _ => new = []
        end
  end.
Proof.
  cbn zeta. destruct (read_csv "," "." transformed) as [df|e] eqn:Hr.
  - by eapply load_to_postgres_run.
  - by apply load_to_postgres_read_error.
Qed.

Lemma row_complete_not_null {datum} (r : fuels.row datum) :
  row_complete r = true -> critical_null r = false.
Proof.
  unfold row_complete, critical_null. cbn. rewrite !andb_true_iff, !negb_true_iff.
  intros (H1 & _ & _ & H4 & _ & H6 & _). by rewrite H1, H4, H6.
Qed.

Lemma null_rows_app {datum} cs (old new : list (fuels.row datum)) :
  Forall (fun r => row_complete r = true) new ->
  null_rows (MkTable cs (old ++ new)) = null_rows (MkTable cs old).
Proof.
  intros Hall. unfold null_rows. cbn. rewrite filter_app.
  replace (filter _ new) with (@nil (fuels.row datum)); [by rewrite app_nil_r|].
  symmetry. induction Hall as [|r new Hr _ IH]; [done|].
  by rewrite filter_cons, (row_complete_not_null r Hr).
Qed.

Lemma validate_db_ok_iff {datum} (t : table datum) :
  (validate_db (Some t)).1 = Ok () <-> rows t ≠ [] /\ null_rows t = [].
Proof.
  rewrite validate_db_run. destruct (rows t) as [|r rs].
  - cbn. split; [done|]. by intros [? _].
  - destruct (null_rows t); cbn; split; try done. by intros [_ ?].
Qed.

(** X2. After a successful run of the loader the validator passes
    exactly when the table is not left empty and held no row with a
    NULL retailer, product or sale price before the run: the rows of
    the file never fail its second check, whatever values they miss. *)
Theorem validate_after_load {datum : Type} `{EqDecision datum}
    (pg_cast : sql_type -> sql_literal -> option datum)
    (transformed : csv_file ",") (db : option (table datum)) :
  let run := load_to_postgres pg_cast transformed db in
  run.1 = Ok () ->
  ((validate_db (durable run.2)).1 = Ok () <->
   (rows (table_or_new db) ≠ [] \/ records transformed ≠ []) /\
   null_rows (table_or_new db) = []).
Proof.
  cbn zeta. intros Hok.
  destruct (read_csv "," "." transformed) as [df|e] eqn:Hr.
  2: { by rewrite (load_to_postgres_read_error pg_cast _ db _ Hr) in Hok. }
  destruct (load_to_postgres_run pg_cast _ _ db Hr) as (new & -> & Hall & Hlen).
  rewrite Hok in Hlen. rewrite validate_db_ok_iff. cbn [rows].
  rewrite null_rows_app by done.
  assert (null_rows (MkTable (constraints (table_or_new db)) (rows (table_or_new db)))
          = null_rows (table_or_new db)) as -> by (by destruct (table_or_new db)).
  assert ((rows (table_or_new db) ++ new)%list ≠ [] <->
          rows (table_or_new db) ≠ [] \/ records transformed ≠ []) as ->; [|done].
  destruct (rows (table_or_new db)) as [|r rs]; cbn.
  - destruct new, (records transformed); cbn in Hlen; try done; split; try tauto;
      intros _; first [done | by right].
  - split; [by left|done].
Qed.

Lemma validate_after_load_witness :
  let run := load_to_postgres pg_cast_model transformed_missing_values None in
  no_null_in "Revenda" transformed_missing_values = false /\
  no_null_in "Valor de Venda" transformed_missing_values = false /\
  run.1 = Ok () /\ (validate_db (durable run.2)).1 = Ok ().
Proof.
  cbn zeta. split; [reflexivity|]. split; [reflexivity|]. split; [reflexivity|].
  apply (validate_after_load pg_cast_model transformed_missing_values None eq_refl).
  split; [right; discriminate|reflexivity].
Defined.



(** ** The columns the loader needs *)

Lemma iterrows_labels df r : r ∈ iterrows df -> r.*1 = column_names df.
Proof.
  unfold iterrows. intros (i & -> & _)%list_elem_of_fmap.
  unfold column_names. rewrite <- list_fmap_compose. by apply list_fmap_ext.
Qed.

Lemma row_params_missing (r : py_row) c :
  c ∈ insert_labels -> c ∉ r.*1 ->
  exists k, row_params r = Err (KeyError k) /\ k ∈ insert_labels /\ k ∉ r.*1.
Proof.
  intros Hc Hmiss. unfold row_params, row_getitem.
  repeat (match goal with
          | |- context [alist_get ?l r] =>
              destruct (alist_get l r) eqn:?; cbn;
              [|exists l; split; [done|]; split;
                [apply (bool_decide_unpack _); by vm_compute
                |by apply alist_get_None]]
          end).
  exfalso. unfold insert_labels in Hc. rewrite !elem_of_cons, elem_of_nil in Hc.
  repeat (destruct Hc as [->|Hc];
          [apply Hmiss; by eapply alist_get_Some_elem|]).
  done.
Qed.

(** X4. The loader looks the columns up row by row.  On a file with at
    least one record that lacks one of the ten labels of the INSERT it
    fails with the KeyError of a label the file lacks, after the table
    was created and before any INSERT is sent.  On a file without
    records it succeeds whatever its columns, and adds nothing. *)
Theorem load_to_postgres_columns {datum : Type} `{EqDecision datum}
    (pg_cast : sql_type -> sql_literal -> option datum)
    (transformed : csv_file ",") (df : DataFrame) (db : option (table datum)) :
  read_csv "," "." transformed = Ok df ->
  (records transformed = [] ->
   load_to_postgres pg_cast transformed db =
     (Ok (), MkConn (Some (table_or_new db)) (Some (table_or_new db))
               [CreateTableIfNotExists; Commit; Commit])) /\
  (records transformed ≠ [] ->
   forall c, c ∈ insert_labels -> c ∉ header transformed ->
   exists k, load_to_postgres pg_cast transformed db = (Err (KeyError k), created db) /\
             k ∈ insert_labels /\ k ∉ header transformed).
Proof.
  intros Hr. pose proof (read_csv_shape _ _ _ _ Hr) as (Hn & Hnames & _).
  unfold load_to_postgres. rewrite Hr, load_session_start. split.
  - intros Hnil. unfold iterrows. rewrite Hn, Hnil. done.
  - intros Hne c Hc Hmiss.
    destruct (iterrows df) as [|r rs] eqn:Hrows.
    { pose proof (length_iterrows df) as Hlen. rewrite Hrows, Hn in Hlen.
      by destruct (records transformed). }
    assert (r.*1 = header transformed) as Hlabels.
    { rewrite <- Hnames. apply iterrows_labels. rewrite Hrows. left. }
    destruct (row_params_missing r c Hc) as (k & Hk & Hin & Hkm);
      [by rewrite Hlabels|].
    exists k. cbn. unfold db_bind, db_lift. rewrite Hk.
    split; [done|]. split; [done|by rewrite <- Hlabels].
Qed.

Lemma load_to_postgres_columns_witness :
  load_to_postgres pg_cast_model transformed_empty None =
    (Ok (), MkConn (Some (MkTable [] [])) (Some (MkTable [] []))
              [CreateTableIfNotExists; Commit; Commit]) /\
  exists k, load_to_postgres pg_cast_model transformed_no_price None =
              (Err (KeyError k), created None) /\
            k ∈ insert_labels /\ k ∉ header transformed_no_price.
Proof.
  split.
  - exact (proj1 (load_to_postgres_columns pg_cast_model transformed_empty
                    (frame_of transformed_empty) None eq_refl) eq_refl).
  - apply (proj2 (load_to_postgres_columns pg_cast_model transformed_no_price
                    (frame_of transformed_no_price) None eq_refl)
             ltac:(discriminate) "Valor de Venda").
    + apply (bool_decide_unpack _). by vm_compute.
    + apply (bool_decide_unpack _). by vm_compute.
Defined.

(** ** Texts of numbers, read back *)




























(** ** Reading the file a stage wrote *)






(** ** The shape of a numeric literal *)







(** ** From the transformer to the INSERT *)















(** ** From the raw file to the transformed file *)






Lemma transform_data_shape (cleaned out : csv_file ",") :
  transform_data cleaned = Ok out ->
  length (records out) = length (records cleaned) /\
  header out =
    (header cleaned ++ filter (fun c => c ∉ header cleaned) ["Year"; "Month"])%list.
Proof.
  intros (df & df1 & s0 & ds & Hr & Hreq & Hn & Hnames & Hval & Hs & Hds & ->)
    %transform_data_Ok_inv.
  pose proof (read_csv_shape _ _ _ _ Hr) as (Hrows & _).
  split; [rewrite length_records_to_csv; cbn; congruence|].
  cbn [to_csv header]. rewrite transformed_frame_names, Hnames; [done|].
  rewrite Hnames. apply Hreq, date_col_required.
Qed.




(** ** The run of the DAG *)

Lemma clean_data_rows (raw : csv_file ";") out :
  clean_data raw = Ok out -> length (records out) = length (records raw).
Proof.
  unfold clean_data. destruct (read_csv ";" "," raw) as [df|] eqn:Hr; [|done].
  cbn. intros [= <-]. rewrite length_records_to_csv. cbn.
  by apply read_csv_shape in Hr as (-> & _).
Qed.

Section DagRuns.
Context {datum : Type} `{EqDecision datum}.
Variable pg_cast : sql_type -> sql_literal -> option datum.

Lemma validate_db_durable (db : option (table datum)) :
  durable (validate_db db).2 = db.
Proof.
  destruct db as [t|]; [|done].
  rewrite validate_db_run. destruct (rows t); [done|]. by destruct (null_rows t).
Qed.

(* a failed run of the loader leaves a database on which it runs as it
   did *)
Lemma load_to_postgres_rerun (f : csv_file ",") (db : option (table datum)) e :
  (load_to_postgres pg_cast f db).1 = Err e ->
  load_to_postgres pg_cast f (durable (load_to_postgres pg_cast f db).2)
  = load_to_postgres pg_cast f db.
Proof.
  intros Herr. destruct (read_csv "," "." f) as [df|e'] eqn:Hr.
  - destruct (load_to_postgres_run pg_cast _ _ db Hr) as (new & Hd & _ & Hnew).
    rewrite Herr in Hnew. subst new. rewrite Hd, app_nil_r.
    unfold load_to_postgres. rewrite Hr, !load_session_start.
    by destruct db as [[cs rs]|].
  - by rewrite !(load_to_postgres_read_error pg_cast _ _ _ Hr).
Qed.

(* a task that fails again on the world its failure leaves is not
   helped by retries *)
Lemma run_task_stable (t : task datum) :
  (forall w e w', t w = (Failed e, w') -> t w' = (Failed e, w')) ->
  forall n w, run_task n t w = t w.
Proof.
  intros Hst n. induction n as [|n IH]; intros w; cbn.
  - by destruct (t w) as [[v|e] w'].
  - destruct (t w) as [[v|e] w'] eqn:Ht; [done|]. rewrite IH. by eapply Hst.
Qed.

Lemma task_clean_stable (w : world datum) e w' :
  task_clean w = (Failed e, w') -> task_clean w' = (Failed e, w').
Proof.
  intros Ht. assert (w' = w) as ->; [|done].
  unfold task_clean in Ht. repeat case_match; by simplify_eq.
Qed.

Lemma task_transform_stable (w : world datum) e w' :
  task_transform w = (Failed e, w') -> task_transform w' = (Failed e, w').
Proof.
  intros Ht. assert (w' = w) as ->; [|done].
  unfold task_transform in Ht. repeat case_match; by simplify_eq.
Qed.

Lemma task_load_stable (w : world datum) e w' :
  task_load pg_cast w = (Failed e, w') -> task_load pg_cast w' = (Failed e, w').
Proof.
  destruct w as [rm rf cf [f|] db]; unfold task_load; cbn.
  - destruct (load_to_postgres pg_cast f db).1 as [[]|e0] eqn:Hl; [done|].
    intros [= <- <-]. cbn. by rewrite (load_to_postgres_rerun _ _ _ Hl), Hl.
  - by intros [= <- <-].
Qed.

Lemma task_validate_stable (w : world datum) e w' :
  task_validate w = (Failed e, w') -> task_validate w' = (Failed e, w').
Proof.
  destruct w as [rm rf cf tf db]; unfold task_validate; cbn.
  rewrite validate_db_durable. intros [= He <-]. cbn.
  by rewrite validate_db_durable, He.
Qed.
End DagRuns.


Section DagNormalForm.
Context {datum : Type} `{EqDecision datum}.
Variable pg_cast : sql_type -> sql_literal -> option datum.

(* the first task reads the answers of the remote site and writes the
   raw file, and nothing else *)
Lemma extract_data_sim (w1 w2 : world datum) :
  remote w1 = remote w2 ->
  exists r rm ra1 ra2,
    run_task retries extract_data w1 =
      (r, MkWorld rm ra1 (clean_file w1) (transformed_file w1) (database w1)) /\
    run_task retries extract_data w2 =
      (r, MkWorld rm ra2 (clean_file w2) (transformed_file w2) (database w2)) /\
    match r with
    | Done _ => exists raw, ra1 = Some raw /\ ra2 = Some raw
    | Failed _ => ra1 = raw_file w1 /\ ra2 = raw_file w2
    end.
Proof.
  destruct w1 as [rm r1 c1 t1 d1], w2 as [rm2 r2 c2 t2 d2]. cbn. intros <-.
  unfold retries, run_task, extract_data. cbn.
  destruct rm as [|[r|] [|[r'|] rm]]; cbn;
    repeat (destruct (raise_for_status _); cbn); eauto 10.
Qed.

(* the four tasks after the first, from a world that has a raw file *)
Lemma run_after_extract rm raw cf tf (db : option (table datum)) :
  run_chain [ (T_clean, task_clean); (T_transform, task_transform);
              (T_load, task_load pg_cast); (T_validate, task_validate) ]
            (MkWorld rm (Some raw) cf tf db) =
  match clean_data raw with
  | Err e => (FailedAt T_clean (Raised e), MkWorld rm (Some raw) cf tf db)
  | Ok cleaned =>
      match transform_data cleaned with
      | Err e =>
          (FailedAt T_transform (Raised e), MkWorld rm (Some raw) (Some cleaned) tf db)
      | Ok f =>
          let run := load_to_postgres pg_cast f db in
          let w' := MkWorld rm (Some raw) (Some cleaned) (Some f) (durable run.2) in
          match run.1 with
          | Err e => (FailedAt T_load (Raised e), w')
          | Ok _ =>
              match (validate_db (durable run.2)).1 with
              | Err e => (FailedAt T_validate (Raised e), w')
              | Ok _ => (Success, w')
              end
          end
      end
  end.
Proof.
  cbn [run_chain].
  rewrite run_task_stable by apply task_clean_stable.
  unfold task_clean at 1. cbn [raw_file remote clean_file transformed_file database].
  destruct (clean_data raw) as [cleaned|e]; [|done].
  rewrite run_task_stable by apply task_transform_stable.
  unfold task_transform at 1. cbn [raw_file remote clean_file transformed_file database].
  destruct (transform_data cleaned) as [f|e]; [|done].
  rewrite run_task_stable by apply (task_load_stable pg_cast).
  unfold task_load at 1.
  cbn [raw_file remote clean_file transformed_file database fst snd].
  destruct (load_to_postgres pg_cast f db).1 as [[]|e]; [|done].
  rewrite run_task_stable by apply task_validate_stable.
  unfold task_validate at 1.
  cbn [raw_file remote clean_file transformed_file database fst snd].
  rewrite validate_db_durable.
  by destruct (validate_db _).1 as [[]|e].
Qed.

Lemma etl_fuels_unfold (w : world datum) :
  etl_fuels pg_cast w =
  match run_task retries extract_data w with
  | (Done _, w') =>
      run_chain [ (T_clean, task_clean); (T_transform, task_transform);
                  (T_load, task_load pg_cast); (T_validate, task_validate) ] w'
  | (Failed e, w') => (FailedAt T_extract e, w')
  end.
Proof. done. Qed.
End DagNormalForm.

(** X9. A run of the DAG does not see the files an earlier run left:
    two runs that meet the same answers of the remote site and the same
    database end in the same state, with the same database; and when
    the transformer has succeeded the three files, too, are the same
    at the end, whatever they were at the start. *)
Theorem etl_fuels_stale_files {datum : Type} `{EqDecision datum}
    (pg_cast : sql_type -> sql_literal -> option datum) (w1 w2 : world datum) :
  remote w1 = remote w2 -> database w1 = database w2 ->
  (etl_fuels pg_cast w1).1 = (etl_fuels pg_cast w2).1 /\
  remote (etl_fuels pg_cast w1).2 = remote (etl_fuels pg_cast w2).2 /\
  database (etl_fuels pg_cast w1).2 = database (etl_fuels pg_cast w2).2 /\
  match (etl_fuels pg_cast w1).1 with
  | FailedAt T_extract _ | FailedAt T_clean _ | FailedAt T_transform _ => True
  | _ => (etl_fuels pg_cast w1).2 = (etl_fuels pg_cast w2).2
  end.
Proof.
  intros Hrm Hdb. rewrite !etl_fuels_unfold.
  destruct (extract_data_sim w1 w2 Hrm) as (r & rm & ra1 & ra2 & -> & -> & Hr).
  destruct r as [v|e]; [|by rewrite Hdb].
  destruct Hr as (raw & -> & ->). rewrite !run_after_extract, Hdb.
  destruct (clean_data raw) as [cleaned|e]; [|done].
  destruct (transform_data cleaned) as [f|e]; [|done].
  cbn zeta. destruct (load_to_postgres pg_cast f (database w2)).1 as [[]|e]; [|done].
  by destruct (validate_db _).1 as [[]|e].
Qed.

Lemma etl_fuels_stale_files_witness :
  (etl_fuels pg_cast_model world_sample).1 = Success /\
  (etl_fuels pg_cast_model world_sample).2 =
  (etl_fuels pg_cast_model
     (MkWorld (remote world_sample) (Some raw_bad_date) (Some cleaned_no_brand)
              None None)).2.
Proof.
  split; [reflexivity|].
  pose proof (etl_fuels_stale_files pg_cast_model world_sample
                (MkWorld (remote world_sample) (Some raw_bad_date)
                         (Some cleaned_no_brand) None None)
                eq_refl eq_refl) as (_ & _ & _ & H).
  exact H.
Defined.

(** X10. What a run of the DAG does to the table fuels.  A run that
    fails before the loader leaves the database as it was; a run that
    fails in the loader leaves the rows as they were.  Every other run,
    whether it succeeds or fails in the validator, has appended one row
    per record of the raw file it fetched, none of them with a NULL: a
    failed validation undoes nothing, and it is a ValueError. *)
Theorem etl_fuels_database {datum : Type} `{EqDecision datum}
    (pg_cast : sql_type -> sql_literal -> option datum) (w : world datum) :
  let run := etl_fuels pg_cast w in
  let appended :=
    exists raw new,
      raw_file run.2 = Some raw /\
      rows_of (database run.2) = (rows_of (database w) ++ new)%list /\
      length new = length (records raw) /\
      Forall (fun r => row_complete r = true) new in
  match run.1 with
  | FailedAt T_extract _ | FailedAt T_clean _ | FailedAt T_transform _ =>
      database run.2 = database w
  | FailedAt T_load _ => rows_of (database run.2) = rows_of (database w)
  | FailedAt T_validate e => appended /\ exists msg, e = Raised (ValueError msg)
  | Success => appended /\ (validate_db (database run.2)).1 = Ok ()
  end.
Proof.
  cbn zeta. rewrite etl_fuels_unfold.
  destruct (extract_data_sim w w eq_refl) as (r & rm & ra & ? & -> & _ & Hr).
  destruct r as [v|e]; [|done].
  destruct Hr as (raw & -> & _). rewrite run_after_extract.
  destruct (clean_data raw) as [cleaned|e] eqn:Hclean; [|done].
  destruct (transform_data cleaned) as [f|e] eqn:Htr; [|done].
  cbn zeta.
  assert (length (records f) = length (records raw)) as Hlen.
  { destruct (transform_data_shape _ _ Htr) as [-> _]. by apply clean_data_rows. }
  destruct (read_csv "," "." f) as [df|e] eqn:Hread.
  2: { by rewrite (load_to_postgres_read_error pg_cast _ _ _ Hread). }
  destruct (load_to_postgres_run pg_cast f df (database w) Hread)
    as (new & Hd & Hall & Hnew).
  destruct (load_to_postgres pg_cast f (database w)).1 as [[]|e] eqn:Hload.
  - assert (exists raw0 new0,
              Some raw = Some raw0 /\
              rows_of (durable (load_to_postgres pg_cast f (database w)).2) =
                (rows_of (database w) ++ new0)%list /\
              length new0 = length (records raw0) /\
              Forall (fun r => row_complete r = true) new0) as Happ.
    { exists raw, new. rewrite Hd. repeat split; [congruence|done]. }
    destruct (validate_db _).1 as [[]|e] eqn:Hv; cbn; (split; [done|]); [done|].
    rewrite Hd, validate_db_run in Hv.
    cbn [rows] in Hv. destruct (_ ++ _)%list; [|destruct (null_rows _)]; cbn in Hv;
      simplify_eq; eauto.
  - cbn. subst new. rewrite Hd. unfold rows_of. cbn. by rewrite app_nil_r.
Qed.

(** ** The cells the cleaner writes *)








